(** * Pupil diameter LSL relay: the buffer, the sample model and the relay loop

    A shallow embedding of [pupil_lsl_diameter_relay.py].  The helper
    functions at the end of the module ([_generate_primitive_sample],
    [_create_buffer], [buffer2sample], [_update_buffer]) become functions on
    Python values; [thread_loop] becomes a transition function over the local
    variables of the loop, run over the sequence of results that
    [poller.poll()] hands to it.  Exceptions are values of an error monad;
    everything the loop does to the outside (transport subscriptions, outlets
    opened, samples pushed, log records) is appended to a trace. *)

From Stdlib Require Import ZArith String Ascii List Bool PrimFloat FloatOps SpecFloat.
From stdpp Require Import base option list strings gmap.
Import ListNotations.

Open Scope string_scope.
Open Scope Z_scope.
Set Warnings "-inexact-float".

(** ** Python values and exceptions *)

Module Py.

(** The values a decoded payload carries: integers, doubles and strings. *)
Inductive value : Type :=
| PyInt (z : Z)
| PyFloat (f : float)
| PyStr (s : string).

(** The exceptions the embedded code can raise.  [SinkError] stands for
    whatever [push_sample] raises when the sink rejects a sample. *)
Inductive exn : Type :=
| KeyError (key : string)
| IndexError
| TypeError
| UnboundLocalError (name : string)
| AttributeError (name : string)
| SinkError.

Inductive result (A : Type) : Type :=
| Ok (a : A)
| Raise (e : exn).
Arguments Ok {A} a.
Arguments Raise {A} e.

Definition bind {A B : Type} (r : result A) (k : A -> result B) : result B :=
  match r with
  | Ok a => k a
  | Raise e => Raise e
  end.

Definition is_ok {A : Type} (r : result A) : bool :=
  match r with Ok _ => true | Raise _ => false end.

(** [d[key]] on a dict. *)
Definition getitem (d : gmap string value) (key : string) : result value :=
  match d !! key with
  | Some v => Ok v
  | None => Raise (KeyError key)
  end.

(** [d.get(key, default)]. *)
Definition get (d : gmap string value) (key : string) (default : value) : value :=
  match d !! key with
  | Some v => v
  | None => default
  end.

(** [l[i] = x] on a list: a negative index counts from the end, an index
    outside [-len, len) raises IndexError, an index that is no integer raises
    TypeError.  The list keeps its length. *)
Definition setitem {A : Type} (l : list A) (i : value) (x : A) : result (list A) :=
  match i with
  | PyInt z =>
      let n := Z.of_nat (length l) in
      let j := if z <? 0 then z + n else z in
      if (0 <=? j) && (j <? n) then Ok (<[Z.to_nat j := x]> l) else Raise IndexError
  | _ => Raise TypeError
  end.

(** [l[i]] for a literal index [i >= 0]. *)
Definition index {A : Type} (l : list A) (i : nat) : result A :=
  match l !! i with
  | Some x => Ok x
  | None => Raise IndexError
  end.

(** Exact comparison of a double with an integer; [None] for a NaN. *)
Definition float_compare_Z (f : float) (z : Z) : option comparison :=
  match Prim2SF f with
  | S754_nan => None
  | S754_infinity s => Some (if s then Lt else Gt)
  | S754_zero _ => Some (0 ?= z)
  | S754_finite s m e =>
      let v := if s then Z.neg m else Z.pos m in
      Some (if 0 <=? e then (v * 2 ^ e ?= z) else (v ?= z * 2 ^ (- e)))
  end.

(** [a > b].  Numbers compare by value, strings by code units, a string and
    a number do not compare. *)
Definition gt (a b : value) : result bool :=
  match a, b with
  | PyFloat x, PyFloat y => Ok (PrimFloat.ltb y x)
  | PyInt x, PyInt y => Ok (y <? x)
  | PyFloat x, PyInt y =>
      Ok (match float_compare_Z x y with Some Gt => true | _ => false end)
  | PyInt x, PyFloat y =>
      Ok (match float_compare_Z y x with Some Lt => true | _ => false end)
  | PyStr x, PyStr y => Ok (String.ltb y x)
  | _, _ => Raise TypeError
  end.

(** [max(a, b)]: the first argument stays unless the second is greater. *)
Definition max (a b : value) : result value :=
  bind (gt b a) (fun g => Ok (if g then b else a)).

End Py.

Import Py.

Notation "x <- r ;; k" := (Py.bind r (fun x => k))
  (at level 100, r at next level, right associativity).

(** ** Module-level helpers *)

Definition NOTIFY_SUB_TOPIC : string := "notify.".
Definition PUPIL_SUB_TOPIC : string := "pupil.".

Abbreviation payload := (gmap string value).

(** A primitive sample is the 3-tuple [(diameter, confidence, timestamp)]. *)
Definition sample : Type := value * value * value.

Definition diameter_of (s : sample) : value := s.1.1.
Definition confidence_of (s : sample) : value := s.1.2.
Definition timestamp_of (s : sample) : value := s.2.

(** The buffer is a Python list of samples, one per eye. *)
Definition buffer : Type := list sample.

Inductive channel_format : Type := cf_double64 | cf_string.

(** What [lsl.StreamInfo] is built from, with the channel labels and the
    acquisition entries appended to its description. *)
Record StreamInfo : Type := {
  si_name : string;
  si_type : string;
  si_channel_count : nat;
  si_channel_format : channel_format;
  si_source_id : string;
  si_channels : list string;
  si_acquisition : list (string * string)
}.

Inductive StreamOutlet : Type := Outlet (info : StreamInfo).

Definition _append_acquisition_info (i : StreamInfo) : StreamInfo :=
  {| si_name := si_name i; si_type := si_type i;
     si_channel_count := si_channel_count i;
     si_channel_format := si_channel_format i;
     si_source_id := si_source_id i;
     si_channels := si_channels i;
     si_acquisition := si_acquisition i ++
       [("manufacturer", "Pupil Labs"); ("source", "Pupil LSL Relay Plugin")] |}.

Definition _append_channel_info (i : StreamInfo) (channels : list string) : StreamInfo :=
  {| si_name := si_name i; si_type := si_type i;
     si_channel_count := si_channel_count i;
     si_channel_format := si_channel_format i;
     si_source_id := si_source_id i;
     si_channels := si_channels i ++ channels;
     si_acquisition := si_acquisition i |}.

Definition _create_notify_lsl_outlet (url : string) : StreamOutlet :=
  let notification_info :=
    {| si_name := "Notifications"; si_type := "Pupil Capture";
       si_channel_count := 2; si_channel_format := cf_string;
       si_source_id := String.append "Notifications @ " url;
       si_channels := []; si_acquisition := [] |} in
  Outlet (_append_acquisition_info
            (_append_channel_info notification_info
               ["subject"; "Python Representation"])).

Definition _create_buffered_lsl_outlet (url name : string) : StreamOutlet :=
  let stream_info :=
    {| si_name := name; si_type := "Pupil Capture";
       si_channel_count := 5; si_channel_format := cf_double64;
       si_source_id := String.append name (String.append " @ " url);
       si_channels := []; si_acquisition := [] |} in
  Outlet (_append_acquisition_info
            (_append_channel_info stream_info
               ["diameter_0"; "diameter_1"; "confidence_0"; "confidence_1";
                "timestamp"])).

(** [(payload.get('diameter', -1.0), payload['confidence'], payload['timestamp'])] *)
Definition _generate_primitive_sample (p : payload) : result sample :=
  let d := Py.get p "diameter" (PyFloat (-1)%float) in
  c <- Py.getitem p "confidence" ;;
  t <- Py.getitem p "timestamp" ;;
  Ok (d, c, t).

(** [t0] is the reading of [lsl.local_clock()]. *)
Definition _create_buffer (t0 : float) : buffer :=
  [ (PyFloat (-1)%float, PyFloat 0%float, PyFloat t0);
    (PyFloat (-1)%float, PyFloat 0%float, PyFloat t0) ].

Definition buffer2sample (b : buffer) : result (list value) :=
  b0 <- Py.index b 0 ;;
  b1 <- Py.index b 1 ;;
  m <- Py.max (timestamp_of b0) (timestamp_of b1) ;;
  Ok [ diameter_of b0; diameter_of b1;
       confidence_of b0; confidence_of b1;
       m ].

(** [buffer[eyeid] = sample; return buffer] *)
Definition _update_buffer (eyeid : value) (b : buffer) (s : sample) : result buffer :=
  Py.setitem b eyeid s.

(** The greater of two doubles as [max] picks it. *)
Definition fmax (a b : float) : float := if PrimFloat.ltb a b then b else a.

(** ** The relay loop *)

(** What an outlet is handed by [push_sample]: the five-channel list of the
    pupil outlet, or the pair [(payload['subject'], repr(payload))] of the
    notification outlet, whose second component is kept as the payload that
    [repr] renders. *)
Inductive pushed : Type :=
| Numeric (channels : list value)
| SubjectRepr (subject : value) (rendered : payload).

(** The log records of [thread_loop], one constructor per call of the logger. *)
Inductive record : Type :=
| InfoConnecting (url : string)
| DebugSendAt (timestamp : value)
| DebugNotHandled (topic : string)
| DebugSubscribed (topic : string)
| DebugUnsubscribed (topic : string)
| ErrorUnloading
| ErrorDetails (e : exn)
| DebugShuttingDown.

(** What the loop does to its collaborators, in the order it happens. *)
Inductive effect : Type :=
| Subscribe (topic : string)
| Unsubscribe (topic : string)
| Open (o : StreamOutlet)
| Push (o : StreamOutlet) (x : pushed)
| Log (r : record).

(** A local name of [thread_loop] that is assigned on some paths only. *)
Inductive binding (A : Type) : Type :=
| Unbound
| Bound (a : A).
Arguments Unbound {A}.
Arguments Bound {A} a.

Definition read {A : Type} (name : string) (b : binding A) : result A :=
  match b with
  | Bound a => Ok a
  | Unbound => Raise (UnboundLocalError name)
  end.

Inductive Pipe : Type := HostPipe.

(** The plugin's attributes that [thread_loop] reads or writes, the local
    names of [thread_loop], and the trace of effects so far. *)
Record state : Type := {
  relay_pupil : bool;
  relay_notifications : bool;
  ipc_sub_url : string;
  thread_pipe : option Pipe;
  alive : bool;
  pupil_outlet : option StreamOutlet;
  notification_outlet : option StreamOutlet;
  pupil_buffer : binding buffer;
  pupil_outlets : binding (option StreamOutlet);
  trace : list effect
}.

Definition emit (e : effect) (s : state) : state :=
  {| relay_pupil := relay_pupil s; relay_notifications := relay_notifications s;
     ipc_sub_url := ipc_sub_url s; thread_pipe := thread_pipe s; alive := alive s;
     pupil_outlet := pupil_outlet s; notification_outlet := notification_outlet s;
     pupil_buffer := pupil_buffer s; pupil_outlets := pupil_outlets s;
     trace := trace s ++ [e] |}.

Definition set_pupil_outlet (o : option StreamOutlet) (s : state) : state :=
  {| relay_pupil := relay_pupil s; relay_notifications := relay_notifications s;
     ipc_sub_url := ipc_sub_url s; thread_pipe := thread_pipe s; alive := alive s;
     pupil_outlet := o; notification_outlet := notification_outlet s;
     pupil_buffer := pupil_buffer s; pupil_outlets := pupil_outlets s;
     trace := trace s |}.

Definition set_notification_outlet (o : option StreamOutlet) (s : state) : state :=
  {| relay_pupil := relay_pupil s; relay_notifications := relay_notifications s;
     ipc_sub_url := ipc_sub_url s; thread_pipe := thread_pipe s; alive := alive s;
     pupil_outlet := pupil_outlet s; notification_outlet := o;
     pupil_buffer := pupil_buffer s; pupil_outlets := pupil_outlets s;
     trace := trace s |}.

Definition set_pupil_buffer (b : buffer) (s : state) : state :=
  {| relay_pupil := relay_pupil s; relay_notifications := relay_notifications s;
     ipc_sub_url := ipc_sub_url s; thread_pipe := thread_pipe s; alive := alive s;
     pupil_outlet := pupil_outlet s; notification_outlet := notification_outlet s;
     pupil_buffer := Bound b; pupil_outlets := pupil_outlets s;
     trace := trace s |}.

Definition set_pupil_outlets (o : option StreamOutlet) (s : state) : state :=
  {| relay_pupil := relay_pupil s; relay_notifications := relay_notifications s;
     ipc_sub_url := ipc_sub_url s; thread_pipe := thread_pipe s; alive := alive s;
     pupil_outlet := pupil_outlet s; notification_outlet := notification_outlet s;
     pupil_buffer := pupil_buffer s; pupil_outlets := Bound o;
     trace := trace s |}.

(** The [finally] clause: [self.thread_pipe = None; self.alive = False]. *)
Definition clear_thread_pipe (s : state) : state :=
  {| relay_pupil := relay_pupil s; relay_notifications := relay_notifications s;
     ipc_sub_url := ipc_sub_url s; thread_pipe := None; alive := false;
     pupil_outlet := pupil_outlet s; notification_outlet := notification_outlet s;
     pupil_buffer := pupil_buffer s; pupil_outlets := pupil_outlets s;
     trace := trace s |}.

(** Statements of [thread_loop]: they read and write the state and may raise.
    A raised exception keeps the state reached so far. *)
Definition Loop (A : Type) : Type := state -> result A * state.

Definition ret {A : Type} (a : A) : Loop A := fun s => (Ok a, s).

Definition bindL {A B : Type} (c : Loop A) (k : A -> Loop B) : Loop B :=
  fun s =>
    match c s with
    | (Ok a, s') => k a s'
    | (Raise e, s') => (Raise e, s')
    end.

Notation "x <~ c ;; k" := (bindL c (fun x => k))
  (at level 100, c at next level, right associativity).
Notation "c ;;; k" := (bindL c (fun _ => k))
  (at level 100, right associativity).

Definition lift {A : Type} (r : result A) : Loop A := fun s => (r, s).
Definition gets {A : Type} (f : state -> A) : Loop A := fun s => (Ok (f s), s).
Definition modify (f : state -> state) : Loop unit := fun s => (Ok tt, f s).
Definition perform (e : effect) : Loop unit := modify (emit e).
Definition log (r : record) : Loop unit := perform (Log r).

(** Truth value of [None] or an outlet object. *)
Definition truthy (o : option StreamOutlet) : bool :=
  match o with Some _ => true | None => false end.

(** [outlet.push_sample(x)]; [accepts] tells whether the sink takes it. *)
Definition push_sample (o : StreamOutlet) (x : pushed) (accepts : bool) : Loop unit :=
  if accepts then perform (Push o x) else lift (Raise SinkError).

(** [l[-1]] *)
Definition last_item (l : list value) : result value :=
  match last l with
  | Some v => Ok v
  | None => Raise IndexError
  end.

(** The class body defines [__init__], [init_ui], [get_init_dict],
    [deinit_ui], [cleanup], [shutdown_thread_loop] and [thread_loop]; the
    outlet constructors are functions of the module that take the url.  The
    base class [Plugin] belongs to the host application and is taken to
    provide neither name, so the attribute lookups
    [self._create_pupil_lsl_outlets] and [self._create_notify_lsl_outlet]
    find nothing.  No property below reaches either call. *)
Definition self__create_pupil_lsl_outlets : result (option StreamOutlet) :=
  Raise (AttributeError "_create_pupil_lsl_outlets").

Definition self__create_notify_lsl_outlet : result StreamOutlet :=
  Raise (AttributeError "_create_notify_lsl_outlet").

Record message : Type := { topic : string; body : payload }.

(** A control message: the command frame and the frame after it, which
    [Subscribe] and [Unsubscribe] read as the topic. *)
Record command : Type := { cmd : string; arg : string }.

(** One result of [poller.poll()]: the message waiting on the inlet, if any,
    the command waiting on the pipe, if any, and whether the sink accepts a
    sample pushed during this iteration. *)
Record poll : Type := {
  inlet_ready : option message;
  pipe_ready : option command;
  sink_accepts : bool
}.

(** [if inlet.socket in items: ...] *)
Definition on_inlet (m : message) (accepts : bool) : Loop unit :=
  po <~ gets pupil_outlet ;;
  no <~ gets notification_outlet ;;
  match (if String.prefix PUPIL_SUB_TOPIC (topic m) then po else None) with
  | Some outlet =>
      eyeid <~ lift (Py.getitem (body m) "id") ;;
      smp <~ lift (_generate_primitive_sample (body m)) ;;
      b <~ (fun s => (read "pupil_buffer" (pupil_buffer s), s)) ;;
      b' <~ lift (_update_buffer eyeid b smp) ;;
      modify (set_pupil_buffer b') ;;;
      new_sample <~ lift (buffer2sample b') ;;
      push_sample outlet (Numeric new_sample) accepts ;;;
      t <~ lift (last_item new_sample) ;;
      log (DebugSendAt t)
  | None =>
      match (if String.prefix NOTIFY_SUB_TOPIC (topic m) then no else None) with
      | Some outlet =>
          subject <~ lift (Py.getitem (body m) "subject") ;;
          push_sample outlet (SubjectRepr subject (body m)) accepts
      | None => log (DebugNotHandled (topic m))
      end
  end.

(** [if pipe in items: ...]; the result tells whether the loop breaks. *)
Definition on_pipe (c : command) : Loop bool :=
  if String.eqb (cmd c) "Exit" then ret true
  else if String.eqb (cmd c) "Subscribe" then
    let topic := arg c in
    perform (Subscribe topic) ;;;
    po <~ gets pupil_outlet ;;
    no <~ gets notification_outlet ;;
    (if String.eqb topic PUPIL_SUB_TOPIC && negb (truthy po) then
       o <~ lift self__create_pupil_lsl_outlets ;;
       modify (set_pupil_outlets o)
     else if String.eqb topic NOTIFY_SUB_TOPIC && negb (truthy no) then
       o <~ lift self__create_notify_lsl_outlet ;;
       modify (set_notification_outlet (Some o))
     else ret tt) ;;;
    log (DebugSubscribed topic) ;;;
    ret false
  else if String.eqb (cmd c) "Unsubscribe" then
    let topic := arg c in
    perform (Unsubscribe topic) ;;;
    first <~ (if String.eqb topic PUPIL_SUB_TOPIC
              then (fun s => (o <- read "pupil_outlets" (pupil_outlets s) ;; Ok (truthy o), s))
              else ret false) ;;
    no <~ gets notification_outlet ;;
    (if first then modify (set_pupil_outlets None)
     else if String.eqb topic NOTIFY_SUB_TOPIC && truthy no then
       modify (set_notification_outlet None)
     else ret tt) ;;;
    log (DebugUnsubscribed topic) ;;;
    ret false
  else ret false.

(** One pass through the body of [while True]. *)
Definition iteration (i : poll) : Loop bool :=
  match inlet_ready i with
  | Some m => on_inlet m (sink_accepts i)
  | None => ret tt
  end ;;;
  match pipe_ready i with
  | Some c => on_pipe c
  | None => ret false
  end.

(** The statements before the loop; [t0] is the clock read by
    [_create_buffer]. *)
Definition starting (t0 : float) : Loop unit :=
  url <~ gets ipc_sub_url ;;
  log (InfoConnecting url) ;;;
  modify (set_pupil_outlet None) ;;;
  modify (set_notification_outlet None) ;;;
  rp <~ gets relay_pupil ;;
  (if rp then
     modify (set_pupil_buffer (_create_buffer t0)) ;;;
     let o := _create_buffered_lsl_outlet url "Buffered Pupil Diameter" in
     perform (Open o) ;;;
     modify (set_pupil_outlet (Some o)) ;;;
     perform (Subscribe PUPIL_SUB_TOPIC)
   else ret tt) ;;;
  rn <~ gets relay_notifications ;;
  (if rn then
     let o := _create_notify_lsl_outlet url in
     perform (Open o) ;;;
     modify (set_notification_outlet (Some o)) ;;;
     perform (Subscribe NOTIFY_SUB_TOPIC)
   else ret tt).

(** [except Exception as e: ...] *)
Definition except (e : exn) (s : state) : state :=
  emit (Log (ErrorDetails e)) (emit (Log ErrorUnloading) s).

(** [finally: ...] *)
Definition finally (s : state) : state :=
  clear_thread_pipe (emit (Log DebugShuttingDown) s).

(** Where the worker is after the polls it was given: blocked in
    [poller.poll()] with the loop still running, or returned. *)
Inductive status : Type :=
| Polling (s : state)
| Stopped (s : state).

Definition state_of (st : status) : state :=
  match st with Polling s | Stopped s => s end.

Fixpoint running (polls : list poll) (s : state) : status :=
  match polls with
  | [] => Polling s
  | i :: rest =>
      match iteration i s with
      | (Ok false, s') => running rest s'
      | (Ok true, s') => Stopped (finally s')
      | (Raise e, s') => Stopped (finally (except e s'))
      end
  end.

Definition thread_loop (t0 : float) (polls : list poll) (s : state) : status :=
  match starting t0 s with
  | (Ok _, s') => running polls s'
  | (Raise e, s') => Stopped (finally (except e s'))
  end.

(** The plugin as [__init__] leaves it, with the worker forked. *)
Definition plugin (pupil notifications : bool) (url : string) : state :=
  {| relay_pupil := pupil; relay_notifications := notifications;
     ipc_sub_url := url; thread_pipe := Some HostPipe; alive := true;
     pupil_outlet := None; notification_outlet := None;
     pupil_buffer := Unbound; pupil_outlets := Unbound;
     trace := [] |}.

(** ** Reading the trace *)

(** The samples pushed, oldest first. *)
Fixpoint pushes (t : list effect) : list pushed :=
  match t with
  | [] => []
  | Push _ x :: t' => x :: pushes t'
  | _ :: t' => pushes t'
  end.

(** The outlets opened, oldest first. *)
Fixpoint opened (t : list effect) : list StreamOutlet :=
  match t with
  | [] => []
  | Open o :: t' => o :: opened t'
  | _ :: t' => opened t'
  end.

(** How often [inlet.subscribe(topic)] was called. *)
Fixpoint subscribed (topic : string) (t : list effect) : nat :=
  match t with
  | [] => O
  | Subscribe a :: t' =>
      if String.eqb a topic then S (subscribed topic t') else subscribed topic t'
  | _ :: t' => subscribed topic t'
  end.

(** The topics [inlet.unsubscribe] was called with, oldest first. *)
Fixpoint unsubscribed (t : list effect) : list string :=
  match t with
  | [] => []
  | Unsubscribe a :: t' => a :: unsubscribed t'
  | _ :: t' => unsubscribed t'
  end.

(** The exceptions the handler of [thread_loop] logged. *)
Fixpoint errors (t : list effect) : list exn :=
  match t with
  | [] => []
  | Log (ErrorDetails e) :: t' => e :: errors t'
  | _ :: t' => errors t'
  end.

Definition stopped (st : status) : bool :=
  match st with Stopped _ => true | Polling _ => false end.

(** A message whose role has its outlet open and whose payload lacks a field
    the role's branch looks up with [payload[...]]. *)
Definition lacks_mandatory_field (s : state) (m : message) : Prop :=
  (String.prefix PUPIL_SUB_TOPIC (topic m) = true
   /\ truthy (pupil_outlet s) = true
   /\ (body m !! "confidence" = None \/ body m !! "timestamp" = None))
  \/ (String.prefix NOTIFY_SUB_TOPIC (topic m) = true
      /\ truthy (notification_outlet s) = true
      /\ body m !! "subject" = None).

(** A [Subscribe] command for a role whose outlet is open. *)
Definition already_enabled (s : state) (c : command) : Prop :=
  cmd c = "Subscribe"
  /\ ((arg c = PUPIL_SUB_TOPIC /\ truthy (pupil_outlet s) = true)
      \/ (arg c = NOTIFY_SUB_TOPIC /\ truthy (notification_outlet s) = true)).

(** A message that is pushed when the sink accepts it. *)
Definition would_push (s : state) (m : message) : Prop :=
  exists s1 : state,
    on_inlet m true s = (Ok tt, s1) /\ pushes (trace s1) <> pushes (trace s).

(** ** Inputs used in the examples *)

Definition data (t : string) (p : payload) : poll :=
  {| inlet_ready := Some {| topic := t; body := p |};
     pipe_ready := None; sink_accepts := true |}.

Definition data_sink_down (t : string) (p : payload) : poll :=
  {| inlet_ready := Some {| topic := t; body := p |};
     pipe_ready := None; sink_accepts := false |}.

Definition control (c a : string) : poll :=
  {| inlet_ready := None;
     pipe_ready := Some {| cmd := c; arg := a |}; sink_accepts := true |}.

Definition eye0 : payload :=
  <["id" := PyInt 0]> (<["diameter" := PyFloat 3.2%float]>
  (<["confidence" := PyFloat 0.9%float]> (<["timestamp" := PyFloat 100%float]> ∅))).

Definition eye1 : payload :=
  <["id" := PyInt 1]> (<["diameter" := PyFloat 3.5%float]>
  (<["confidence" := PyFloat 0.8%float]> (<["timestamp" := PyFloat 100.5%float]> ∅))).

Definition eye0_no_confidence : payload :=
  <["id" := PyInt 0]> (<["diameter" := PyFloat 3.2%float]>
  (<["timestamp" := PyFloat 100%float]> ∅)).

Definition eye_id (z : Z) : payload :=
  <["id" := PyInt z]> (<["diameter" := PyFloat 3.2%float]>
  (<["confidence" := PyFloat 0.9%float]> (<["timestamp" := PyFloat 100%float]> ∅))).

Definition url0 : string := "tcp://127.0.0.1:50020".

(** Eye 0 is buffered, then the pupil role is enabled, disabled and enabled
    again, then eye 1 arrives. *)
Definition enable_disable_enable : list poll :=
  [ data "pupil.0" eye0;
    control "Subscribe" PUPIL_SUB_TOPIC;
    control "Unsubscribe" PUPIL_SUB_TOPIC;
    control "Subscribe" PUPIL_SUB_TOPIC;
    data "pupil.1" eye1 ].

(** The worker blocked in its first [poll] with both roles relayed. *)
Definition both_enabled : state :=
  state_of (thread_loop 5%float [] (plugin true true url0)).

(** ** The host side of the plugin *)

(** [__init__(self, g_pool, relay_pupil=True, relay_notifications=True)]: a
    keyword that is not passed takes its default. *)
Definition __init__ (url : string) (pupil notifications : option bool) : state :=
  plugin (default true pupil) (default true notifications) url.

(** [{'relay_pupil': self.relay_pupil,
      'relay_notifications': self.relay_notifications}] *)
Definition get_init_dict (s : state) : gmap string bool :=
  <["relay_pupil" := relay_pupil s]>
    (<["relay_notifications" := relay_notifications s]> ∅).

(** [setattr(self, attribute_name, value)] for the two names [init_ui] makes
    setters for. *)
Definition setattr (s : state) (attribute_name : string) (v : bool) : state :=
  if String.eqb attribute_name "relay_pupil" then
    {| relay_pupil := v; relay_notifications := relay_notifications s;
       ipc_sub_url := ipc_sub_url s; thread_pipe := thread_pipe s; alive := alive s;
       pupil_outlet := pupil_outlet s; notification_outlet := notification_outlet s;
       pupil_buffer := pupil_buffer s; pupil_outlets := pupil_outlets s;
       trace := trace s |}
  else if String.eqb attribute_name "relay_notifications" then
    {| relay_pupil := relay_pupil s; relay_notifications := v;
       ipc_sub_url := ipc_sub_url s; thread_pipe := thread_pipe s; alive := alive s;
       pupil_outlet := pupil_outlet s; notification_outlet := notification_outlet s;
       pupil_buffer := pupil_buffer s; pupil_outlets := pupil_outlets s;
       trace := trace s |}
  else s.

(** The closure [set_value] that [make_setter(sub_topic, attribute_name)]
    returns: it stores the value and then sends the two frames of the command
    on [self.thread_pipe], given here as the command the worker will receive.
    Once the handle is [None] the call of [send_string] on it raises
    AttributeError, after the value was stored. *)
Definition make_setter (sub_topic attribute_name : string) (v : bool) (s : state)
  : state * result command :=
  (setattr s attribute_name v,
   match thread_pipe (setattr s attribute_name v) with
   | Some _ => Ok {| cmd := if v then "Subscribe" else "Unsubscribe"; arg := sub_topic |}
   | None => Raise (AttributeError "send_string")
   end).

(** The setters of the two switches of [init_ui]. *)
Definition switch_relay_pupil : bool -> state -> state * result command :=
  make_setter PUPIL_SUB_TOPIC "relay_pupil".

Definition switch_relay_notifications : bool -> state -> state * result command :=
  make_setter NOTIFY_SUB_TOPIC "relay_notifications".

(** [shutdown_thread_loop] sends ['Exit'] when the handle is still there (and
    then sleeps until the worker has cleared it); the result is the command
    sent, if any. *)
Definition shutdown_thread_loop (s : state) : option command :=
  match thread_pipe s with
  | Some _ => Some {| cmd := "Exit"; arg := "" |}
  | None => None
  end.

Definition cleanup (s : state) : option command := shutdown_thread_loop s.

(** The worker receiving a command alone. *)
Definition deliver (c : command) : poll :=
  {| inlet_ready := None; pipe_ready := Some c; sink_accepts := true |}.

(** ** Reading a run *)

Definition is_numeric (x : pushed) : bool :=
  match x with Numeric _ => true | SubjectRepr _ _ => false end.

(** The sample has as many values as its outlet has channels: five doubles
    for the pupil outlet, the pair for the notification outlet. *)
Definition fits_channels (x : pushed) : bool :=
  match x with
  | Numeric l => Nat.eqb (List.length l) 5
  | SubjectRepr _ _ => true
  end.

(** The polls that carry a message. *)
Fixpoint messages (polls : list poll) : nat :=
  match polls with
  | [] => O
  | i :: rest =>
      match inlet_ready i with
      | Some _ => S (messages rest)
      | None => messages rest
      end
  end.

(** While the pupil outlet is there the buffer is bound to two slots. *)
Definition two_slots (s : state) : Prop :=
  pupil_outlet s = None
  \/ exists a b : sample, pupil_buffer s = Bound [a; b].

(** What a stretch of the loop may change: it leaves the plugin's settings,
    the handle and the pupil outlet alone and appends [t] to the trace. *)
Definition extends_by (s s' : state) (t : list effect) : Prop :=
  relay_pupil s' = relay_pupil s
  /\ relay_notifications s' = relay_notifications s
  /\ ipc_sub_url s' = ipc_sub_url s
  /\ thread_pipe s' = thread_pipe s
  /\ alive s' = alive s
  /\ pupil_outlet s' = pupil_outlet s
  /\ trace s' = (trace s ++ t)%list.

(** What the effects [t] of a stretch that read [n] messages are like: no
    error record, at most [n] pushes, each fitting its outlet, and no
    five-channel sample unless the pupil outlet [po] is there. *)
Definition quiet (po : option StreamOutlet) (n : nat) (t : list effect) : Prop :=
  errors t = []
  /\ (List.length (pushes t) <= n)%nat
  /\ forallb fits_channels (pushes t) = true
  /\ (po = None -> existsb is_numeric (pushes t) = false).

(** How many messages one poll hands over. *)
Definition reads (i : poll) : nat :=
  match inlet_ready i with Some _ => 1%nat | None => 0%nat end.

(** The state the loop was in when it last went round, and what became of
    it: still polling, returned after a [break], or returned through the
    handler. *)
Definition ends_in (st : status) (pre : state) : Prop :=
  st = Polling pre
  \/ st = Stopped (finally pre)
  \/ exists e : exn, st = Stopped (finally (except e pre)).

(** The command the notification switch sends when it is turned off. *)
Definition unsubscribe_notify : command :=
  {| cmd := "Unsubscribe"; arg := NOTIFY_SUB_TOPIC |}.

(** * Properties *)

(** ** The buffer and the combined sample *)

Section Buffer.

Variables s0 s1 smp : sample.

Lemma update_buffer_slot0 : _update_buffer (PyInt 0) [s0; s1] smp = Ok [smp; s1].
Proof. reflexivity. Qed.

Lemma update_buffer_slot1 : _update_buffer (PyInt 1) [s0; s1] smp = Ok [s0; smp].
Proof. reflexivity. Qed.

(** Only the four indices of a two-element list are accepted. *)
Lemma update_buffer_cases (z : Z) :
  _update_buffer (PyInt z) [s0; s1] smp =
    match z with
    | 0 | -2 => Ok [smp; s1]
    | 1 | -1 => Ok [s0; smp]
    | _ => Raise IndexError
    end.
Proof.
  unfold _update_buffer, Py.setitem.
  destruct z as [|p|p]; [reflexivity| |].
  - destruct p as [p|p|]; [| |reflexivity];
      (replace (Z.pos _ <? 0) with false by (symmetry; apply Z.ltb_ge; lia);
       replace (_ <? Z.of_nat _) with false by (symmetry; apply Z.ltb_ge; cbn; lia);
       now rewrite andb_false_r).
  - destruct p as [p|p|]; [| |reflexivity].
    + replace (Z.neg p~1 <? 0) with true by (symmetry; apply Z.ltb_lt; lia).
      replace (0 <=? _) with false by (symmetry; apply Z.leb_gt; cbn; lia).
      reflexivity.
    + destruct p as [p|p|]; [| |reflexivity];
        (replace (Z.neg _ <? 0) with true by (symmetry; apply Z.ltb_lt; lia);
         replace (0 <=? _) with false by (symmetry; apply Z.leb_gt; cbn; lia);
         reflexivity).
Qed.

Lemma update_buffer_out_of_range (z : Z) :
  z < -2 \/ 1 < z -> _update_buffer (PyInt z) [s0; s1] smp = Raise IndexError.
Proof.
  intros Hz. rewrite update_buffer_cases.
  destruct z as [|p|p]; [lia| |].
  - destruct p as [p|p|]; [reflexivity|reflexivity|lia].
  - destruct p as [p|p|]; [reflexivity| |lia].
    destruct p as [p|p|]; [reflexivity|reflexivity|lia].
Qed.

End Buffer.

Example buffer2sample_scenario :
  buffer2sample [ (PyFloat 3.2%float, PyFloat 0.9%float, PyFloat 100%float);
                  (PyFloat 3.5%float, PyFloat 0.8%float, PyFloat 100.5%float) ]
  = Ok [PyFloat 3.2%float; PyFloat 3.5%float; PyFloat 0.9%float;
        PyFloat 0.8%float; PyFloat 100.5%float].
Proof. reflexivity. Qed.

(** C8: [buffer2sample] takes a buffer of two samples with double timestamps
    to the five channels diameter 0, diameter 1, confidence 0, confidence 1
    and the greater timestamp, in this order; it never raises there.  It is a
    function of the buffer alone and returns only the sample: the source
    reads the buffer and writes nothing, so a second call gives the same. *)
Theorem buffer2sample_combined (d0 c0 d1 c1 : value) (t0 t1 : float) :
  buffer2sample [(d0, c0, PyFloat t0); (d1, c1, PyFloat t1)]
  = Ok [d0; d1; c0; c1; PyFloat (fmax t0 t1)].
Proof.
  unfold buffer2sample, fmax. cbn.
  destruct (PrimFloat.ltb t0 t1); reflexivity.
Qed.

(** C9: on a buffer of two samples, an update with source id 0 or 1 puts the
    sample in that slot and leaves the other slot as it was, and the
    combined sample of the updated buffer carries the sample's diameter in
    channel id. *)
Theorem update_then_combine (s0 s1 smp : sample) (eyeid : Z) (t0 t1 t : float) :
  timestamp_of s0 = PyFloat t0 ->
  timestamp_of s1 = PyFloat t1 ->
  timestamp_of smp = PyFloat t ->
  eyeid = 0 \/ eyeid = 1 ->
  exists (b' : buffer) (out : list value),
    _update_buffer (PyInt eyeid) [s0; s1] smp = Ok b'
    /\ b' !! Z.to_nat eyeid = Some smp
    /\ b' !! Z.to_nat (1 - eyeid) = [s0; s1] !! Z.to_nat (1 - eyeid)
    /\ buffer2sample b' = Ok out
    /\ out !! Z.to_nat eyeid = Some (diameter_of smp).
Proof.
  destruct s0 as [[d0 c0] u0], s1 as [[d1 c1] u1], smp as [[d c] u].
  cbn [timestamp_of snd]. intros -> -> -> [-> | ->].
  - exists [(d, c, PyFloat t); (d1, c1, PyFloat t1)]. eexists.
    split; [reflexivity|]. split; [reflexivity|]. split; [reflexivity|].
    split; reflexivity.
  - exists [(d0, c0, PyFloat t0); (d, c, PyFloat t)]. eexists.
    split; [reflexivity|]. split; [reflexivity|]. split; [reflexivity|].
    split; reflexivity.
Qed.

Lemma update_then_combine_witness :
  exists (b' : buffer) (out : list value),
    _update_buffer (PyInt 1) (_create_buffer 5%float)
      (PyFloat 3.5%float, PyFloat 0.8%float, PyFloat 100.5%float) = Ok b'
    /\ b' !! Z.to_nat 1 = Some (PyFloat 3.5%float, PyFloat 0.8%float, PyFloat 100.5%float)
    /\ b' !! Z.to_nat (1 - 1) = _create_buffer 5%float !! Z.to_nat (1 - 1)
    /\ buffer2sample b' = Ok out
    /\ out !! Z.to_nat 1 = Some (PyFloat 3.5%float).
Proof.
  apply (update_then_combine
           (PyFloat (-1)%float, PyFloat 0%float, PyFloat 5%float)
           (PyFloat (-1)%float, PyFloat 0%float, PyFloat 5%float)
           (PyFloat 3.5%float, PyFloat 0.8%float, PyFloat 100.5%float)
           1 5%float 5%float 100.5%float);
    [reflexivity | reflexivity | reflexivity | right; reflexivity].
Defined.

(** C10: on a buffer of two samples, source id -1 writes slot 1 and source
    id -2 writes slot 0 without raising, so the update and the combined
    sample that follows are those of source id 1 and of source id 0. *)
Theorem negative_eyeid_wraps (s0 s1 smp : sample) :
  _update_buffer (PyInt (-1)) [s0; s1] smp = Ok [s0; smp]
  /\ _update_buffer (PyInt (-2)) [s0; s1] smp = Ok [smp; s1]
  /\ _update_buffer (PyInt (-1)) [s0; s1] smp = _update_buffer (PyInt 1) [s0; s1] smp
  /\ _update_buffer (PyInt (-2)) [s0; s1] smp = _update_buffer (PyInt 0) [s0; s1] smp
  /\ (b <- _update_buffer (PyInt (-1)) [s0; s1] smp ;; buffer2sample b)
     = buffer2sample [s0; smp]
  /\ (b <- _update_buffer (PyInt (-2)) [s0; s1] smp ;; buffer2sample b)
     = buffer2sample [smp; s1].
Proof. repeat split; reflexivity. Qed.

(** ** The trace *)

Lemma pushes_app (t u : list effect) : pushes (t ++ u) = (pushes t ++ pushes u)%list.
Proof.
  induction t as [|e t IH]; [reflexivity|].
  destruct e; cbn; rewrite IH; reflexivity.
Qed.

Lemma opened_app (t u : list effect) : opened (t ++ u) = (opened t ++ opened u)%list.
Proof.
  induction t as [|e t IH]; [reflexivity|].
  destruct e; cbn; rewrite IH; reflexivity.
Qed.

Lemma unsubscribed_app (t u : list effect) :
  unsubscribed (t ++ u) = (unsubscribed t ++ unsubscribed u)%list.
Proof.
  induction t as [|e t IH]; [reflexivity|].
  destruct e; cbn; rewrite IH; reflexivity.
Qed.

Lemma subscribed_app (a : string) (t u : list effect) :
  subscribed a (t ++ u) = (subscribed a t + subscribed a u)%nat.
Proof.
  induction t as [|e t IH]; [reflexivity|].
  destruct e; cbn; try exact IH.
  destruct (String.eqb topic0 a); cbn; rewrite IH; reflexivity.
Qed.

Lemma pushes_log (s : state) (r : record) :
  pushes (trace (emit (Log r) s)) = pushes (trace s).
Proof. cbn. rewrite pushes_app. cbn. apply app_nil_r. Qed.

(** The handler and the [finally] clause only log. *)
Lemma pushes_finally_except (e : exn) (s : state) :
  pushes (trace (finally (except e s))) = pushes (trace s).
Proof.
  unfold finally, except. cbn. rewrite !pushes_app. cbn. rewrite !app_nil_r.
  reflexivity.
Qed.

Lemma thread_pipe_finally (s : state) :
  thread_pipe (finally s) = None /\ alive (finally s) = false.
Proof. split; reflexivity. Qed.

(** A topic has at most one of the two prefixes. *)
Lemma notify_is_not_pupil (t : string) :
  String.prefix NOTIFY_SUB_TOPIC t = true -> String.prefix PUPIL_SUB_TOPIC t = false.
Proof.
  destruct t as [|a t]; [discriminate|].
  unfold NOTIFY_SUB_TOPIC, PUPIL_SUB_TOPIC. cbn [String.prefix].
  destruct (ascii_dec "n" a) as [<-|]; [|discriminate].
  intros _. reflexivity.
Qed.

(** ** Control commands *)

(** C5, as the code has it: an [Exit] command ends the loop and clears the
    worker handle whatever roles are enabled; the outlet names keep their
    outlets, no transport call is made, and the only effect is the debug
    record of the shutdown. *)
Theorem exit_clears_handle_only (s : state) (i : poll) (c : command) (rest : list poll) :
  inlet_ready i = None ->
  pipe_ready i = Some c ->
  cmd c = "Exit" ->
  running (i :: rest) s = Stopped (finally s)
  /\ thread_pipe (finally s) = None
  /\ alive (finally s) = false
  /\ pupil_outlet (finally s) = pupil_outlet s
  /\ notification_outlet (finally s) = notification_outlet s
  /\ trace (finally s) = (trace s ++ [Log DebugShuttingDown])%list.
Proof.
  intros Hi Hp Hc.
  split; [|repeat split].
  cbn [running]. unfold iteration. rewrite Hi, Hp.
  unfold on_pipe. rewrite Hc. reflexivity.
Qed.

Lemma exit_clears_handle_only_witness :
  running [control "Exit" ""] both_enabled = Stopped (finally both_enabled)
  /\ thread_pipe (finally both_enabled) = None
  /\ alive (finally both_enabled) = false
  /\ pupil_outlet (finally both_enabled) = pupil_outlet both_enabled
  /\ notification_outlet (finally both_enabled) = notification_outlet both_enabled
  /\ trace (finally both_enabled) = (trace both_enabled ++ [Log DebugShuttingDown])%list.
Proof.
  apply (exit_clears_handle_only both_enabled (control "Exit" "")
           {| cmd := "Exit"; arg := "" |} []); reflexivity.
Defined.

(** C5, as the spec words it, fails: with both roles enabled the worker
    handle is cleared while both outlets are still held and the transport was
    never unsubscribed. *)
Lemma exit_leaves_outlets_open :
  stopped (thread_loop 5%float [control "Exit" ""] (plugin true true url0)) = true
  /\ thread_pipe (state_of (thread_loop 5%float [control "Exit" ""] (plugin true true url0)))
     = None
  /\ truthy (pupil_outlet
       (state_of (thread_loop 5%float [control "Exit" ""] (plugin true true url0)))) = true
  /\ truthy (notification_outlet
       (state_of (thread_loop 5%float [control "Exit" ""] (plugin true true url0)))) = true
  /\ unsubscribed (trace
       (state_of (thread_loop 5%float [control "Exit" ""] (plugin true true url0)))) = [].
Proof. repeat split. Qed.

(** C3, as the code has it: a [Subscribe] command for a role whose outlet is
    open raises nothing, leaves the outlet names and the buffer as they were
    and opens no outlet; it calls [inlet.subscribe] once more, so the count
    of subscribe calls for the topic grows by one. *)
Theorem subscribe_when_enabled (s : state) (c : command) :
  already_enabled s c ->
  exists s' : state,
    on_pipe c s = (Ok false, s')
    /\ pupil_outlet s' = pupil_outlet s
    /\ notification_outlet s' = notification_outlet s
    /\ pupil_buffer s' = pupil_buffer s
    /\ opened (trace s') = opened (trace s)
    /\ subscribed (arg c) (trace s') = S (subscribed (arg c) (trace s)).
Proof.
  destruct c as [k a]. unfold already_enabled. cbn [cmd arg].
  intros [-> Hrole].
  exists (emit (Log (DebugSubscribed a)) (emit (Subscribe a) s)).
  split.
  - unfold on_pipe. cbn [cmd arg].
    change (String.eqb "Subscribe" "Exit") with false.
    change (String.eqb "Subscribe" "Subscribe") with true.
    cbv iota.
    unfold bindL at 1. unfold perform, modify at 1.
    unfold bindL at 1. unfold gets at 1.
    unfold bindL at 1. unfold gets at 1.
    change (pupil_outlet (emit (Subscribe a) s)) with (pupil_outlet s).
    change (notification_outlet (emit (Subscribe a) s)) with (notification_outlet s).
    destruct Hrole as [[-> Ho] | [-> Ho]]; rewrite Ho.
    + reflexivity.
    + change (String.eqb NOTIFY_SUB_TOPIC PUPIL_SUB_TOPIC) with false.
      reflexivity.
  - cbn [emit trace pupil_outlet notification_outlet pupil_buffer].
    repeat split.
    + rewrite !opened_app. cbn. rewrite !app_nil_r. reflexivity.
    + rewrite !subscribed_app. cbn. rewrite String.eqb_refl. lia.
Qed.

Lemma subscribe_when_enabled_witness :
  exists s' : state,
    on_pipe {| cmd := "Subscribe"; arg := NOTIFY_SUB_TOPIC |} both_enabled = (Ok false, s')
    /\ pupil_outlet s' = pupil_outlet both_enabled
    /\ notification_outlet s' = notification_outlet both_enabled
    /\ pupil_buffer s' = pupil_buffer both_enabled
    /\ opened (trace s') = opened (trace both_enabled)
    /\ subscribed NOTIFY_SUB_TOPIC (trace s')
       = S (subscribed NOTIFY_SUB_TOPIC (trace both_enabled)).
Proof.
  apply (subscribe_when_enabled both_enabled
           {| cmd := "Subscribe"; arg := NOTIFY_SUB_TOPIC |}).
  split; [reflexivity | right; split; reflexivity].
Defined.

(** C3, as the spec words it, fails: after the initial subscription and one
    [Subscribe] command for the enabled notification role the worker is
    still polling, one outlet was opened for the role, and the transport was
    subscribed to the topic twice. *)
Lemma subscribe_twice_in_total :
  stopped (thread_loop 5%float [control "Subscribe" NOTIFY_SUB_TOPIC]
             (plugin false true url0)) = false
  /\ opened (trace (state_of (thread_loop 5%float [control "Subscribe" NOTIFY_SUB_TOPIC]
                                (plugin false true url0))))
     = [_create_notify_lsl_outlet url0]
  /\ subscribed NOTIFY_SUB_TOPIC
       (trace (state_of (thread_loop 5%float [control "Subscribe" NOTIFY_SUB_TOPIC]
                           (plugin false true url0)))) = 2%nat.
Proof. repeat split. Qed.

(** C4 at the failing input: with the pupil role disabled from the start,
    whatever the notification setting, the clock and the url, an
    [Unsubscribe] command for the pupil topic reads the name [pupil_outlets]
    before anything was assigned to it; the UnboundLocalError reaches the
    handler and the worker stops with its handle cleared. *)
Theorem unsubscribe_disabled_pupil_raises
    (t0 : float) (url : string) (notifications : bool) (rest : list poll) :
  on_pipe {| cmd := "Unsubscribe"; arg := PUPIL_SUB_TOPIC |}
    (state_of (thread_loop t0 [] (plugin false notifications url)))
  = (Raise (UnboundLocalError "pupil_outlets"),
     emit (Unsubscribe PUPIL_SUB_TOPIC)
       (state_of (thread_loop t0 [] (plugin false notifications url))))
  /\ stopped (thread_loop t0 (control "Unsubscribe" PUPIL_SUB_TOPIC :: rest)
                (plugin false notifications url)) = true
  /\ errors (trace (state_of
       (thread_loop t0 (control "Unsubscribe" PUPIL_SUB_TOPIC :: rest)
          (plugin false notifications url))))
     = [UnboundLocalError "pupil_outlets"]
  /\ thread_pipe (state_of
       (thread_loop t0 (control "Unsubscribe" PUPIL_SUB_TOPIC :: rest)
          (plugin false notifications url))) = None.
Proof. destruct notifications; repeat split. Qed.

(** The notification role does what C4 says: its [Unsubscribe] on a closed
    outlet raises nothing and leaves the outlet names and the buffer alone. *)
Lemma unsubscribe_disabled_notification (s : state) :
  notification_outlet s = None ->
  on_pipe {| cmd := "Unsubscribe"; arg := NOTIFY_SUB_TOPIC |} s
  = (Ok false,
     emit (Log (DebugUnsubscribed NOTIFY_SUB_TOPIC))
       (emit (Unsubscribe NOTIFY_SUB_TOPIC) s)).
Proof.
  intros Hn. unfold on_pipe. cbn [cmd arg].
  change (String.eqb "Unsubscribe" "Exit") with false.
  change (String.eqb "Unsubscribe" "Subscribe") with false.
  change (String.eqb "Unsubscribe" "Unsubscribe") with true.
  change (String.eqb NOTIFY_SUB_TOPIC PUPIL_SUB_TOPIC) with false.
  cbv iota.
  unfold bindL at 1. unfold perform, modify at 1.
  unfold bindL at 1. unfold ret at 1.
  unfold bindL at 1. unfold gets at 1.
  change (notification_outlet (emit (Unsubscribe NOTIFY_SUB_TOPIC) s))
    with (notification_outlet s).
  rewrite Hn. reflexivity.
Qed.

(** C2 at the failing input: the pupil role starts enabled and eye 0 is
    buffered; of [Subscribe], [Unsubscribe], [Subscribe] for the pupil topic
    the second reads the unassigned name [pupil_outlets], so the worker stops
    there.  The buffer still holds the sample of eye 0, the one outlet opened
    at the start is the only one ever opened, and the message of eye 1 that
    follows is not pushed. *)
Theorem enable_disable_enable_stops_worker :
  stopped (thread_loop 5%float enable_disable_enable (plugin true false url0)) = true
  /\ errors (trace (state_of (thread_loop 5%float enable_disable_enable (plugin true false url0))))
     = [UnboundLocalError "pupil_outlets"]
  /\ pupil_buffer (state_of (thread_loop 5%float enable_disable_enable (plugin true false url0)))
     = Bound [ (PyFloat 3.2%float, PyFloat 0.9%float, PyFloat 100%float);
               (PyFloat (-1)%float, PyFloat 0%float, PyFloat 5%float) ]
  /\ List.length (opened (trace (state_of (thread_loop 5%float enable_disable_enable (plugin true false url0))))) = 1%nat
  /\ pushes (trace (state_of (thread_loop 5%float enable_disable_enable (plugin true false url0))))
     = [Numeric [PyFloat 3.2%float; PyFloat (-1)%float; PyFloat 0.9%float;
                 PyFloat 0%float; PyFloat 100%float]].
Proof. repeat split; vm_compute; reflexivity. Qed.

(** ** Messages on the inlet *)

Ltac loop_steps :=
  cbv beta iota zeta delta [bindL gets lift modify perform log ret push_sample].

Lemma running_raise (i : poll) (rest : list poll) (m : message) (e : exn) (s s' : state) :
  inlet_ready i = Some m ->
  on_inlet m (sink_accepts i) s = (Raise e, s') ->
  running (i :: rest) s = Stopped (finally (except e s')).
Proof.
  intros Hi Hm. cbn [running]. unfold iteration. rewrite Hi.
  unfold bindL at 1. rewrite Hm. reflexivity.
Qed.

Lemma on_inlet_keyerror (s : state) (m : message) (a : bool) :
  lacks_mandatory_field s m ->
  exists key : string, on_inlet m a s = (Raise (KeyError key), s).
Proof.
  intros [(Hpre & Ho & Hmiss) | (Hpre & Ho & Hmiss)]; unfold on_inlet; loop_steps.
  - rewrite Hpre. destruct (pupil_outlet s) as [o|]; [|discriminate Ho].
    unfold Py.getitem at 1. destruct (body m !! "id") as [eyeid|].
    + unfold _generate_primitive_sample, Py.getitem, Py.bind.
      destruct Hmiss as [Hc | Ht].
      * rewrite Hc. exists "confidence". reflexivity.
      * rewrite Ht. destruct (body m !! "confidence");
          [exists "timestamp" | exists "confidence"]; reflexivity.
    + exists "id". reflexivity.
  - rewrite (notify_is_not_pupil _ Hpre), Hpre.
    destruct (notification_outlet s) as [o|]; [|discriminate Ho].
    unfold Py.getitem. rewrite Hmiss. exists "subject". reflexivity.
Qed.

(** C1, as the code has it: a message whose role has its outlet open and
    whose payload lacks a mandatory field raises KeyError without touching
    the state; the handler around the loop logs it, the worker stops with its
    handle cleared, nothing is pushed for the message and the polls that
    follow are never read. *)
Theorem missing_field_stops_worker
    (s : state) (m : message) (i : poll) (rest : list poll) :
  inlet_ready i = Some m ->
  lacks_mandatory_field s m ->
  exists key : string,
    running (i :: rest) s = Stopped (finally (except (KeyError key) s))
    /\ thread_pipe (finally (except (KeyError key) s)) = None
    /\ pushes (trace (finally (except (KeyError key) s))) = pushes (trace s).
Proof.
  intros Hi Hlack.
  destruct (on_inlet_keyerror s m (sink_accepts i) Hlack) as [key Hkey].
  exists key. split; [|split].
  - exact (running_raise i rest m _ s s Hi Hkey).
  - reflexivity.
  - apply pushes_finally_except.
Qed.

Lemma missing_field_stops_worker_witness :
  exists key : string,
    running [data "pupil.0" eye0_no_confidence; data "pupil.1" eye1] both_enabled
    = Stopped (finally (except (KeyError key) both_enabled))
    /\ thread_pipe (finally (except (KeyError key) both_enabled)) = None
    /\ pushes (trace (finally (except (KeyError key) both_enabled)))
       = pushes (trace both_enabled).
Proof.
  apply (missing_field_stops_worker both_enabled
           {| topic := "pupil.0"; body := eye0_no_confidence |}
           (data "pupil.0" eye0_no_confidence) [data "pupil.1" eye1]).
  - reflexivity.
  - left. split; [reflexivity | split; [reflexivity | left; reflexivity]].
Defined.

(** C1, as the spec words it, fails: a pupil message without [confidence]
    stops the worker, and the well-formed message after it is not pushed,
    although the same message is pushed when it comes alone. *)
Lemma missing_confidence_not_dropped :
  stopped (thread_loop 5%float
             [data "pupil.0" eye0_no_confidence; data "pupil.1" eye1]
             (plugin true true url0)) = true
  /\ errors (trace (state_of (thread_loop 5%float
             [data "pupil.0" eye0_no_confidence; data "pupil.1" eye1]
             (plugin true true url0)))) = [KeyError "confidence"]
  /\ pushes (trace (state_of (thread_loop 5%float
             [data "pupil.0" eye0_no_confidence; data "pupil.1" eye1]
             (plugin true true url0)))) = []
  /\ pushes (trace (state_of (thread_loop 5%float
             [data "pupil.1" eye1] (plugin true true url0))))
     = [Numeric [PyFloat (-1)%float; PyFloat 3.5%float; PyFloat 0%float;
                 PyFloat 0.8%float; PyFloat 100.5%float]].
Proof. repeat split; vm_compute; reflexivity. Qed.

Lemma on_inlet_sink_down (s : state) (m : message) :
  would_push s m ->
  exists s' : state,
    on_inlet m false s = (Raise SinkError, s') /\ trace s' = trace s.
Proof.
  intros (s1 & Hrun & Hpush). revert Hrun. unfold on_inlet. loop_steps.
  destruct (if String.prefix PUPIL_SUB_TOPIC (topic m) then pupil_outlet s else None)
    as [o|].
  - destruct (Py.getitem (body m) "id") as [eyeid|e]; [|discriminate].
    destruct (_generate_primitive_sample (body m)) as [smp|e]; [|discriminate].
    destruct (read "pupil_buffer" (pupil_buffer s)) as [b|e]; [|discriminate].
    destruct (_update_buffer eyeid b smp) as [b'|e]; [|discriminate].
    destruct (buffer2sample b') as [new_sample|e]; [|discriminate].
    intros _. exists (set_pupil_buffer b' s). split; reflexivity.
  - destruct (if String.prefix NOTIFY_SUB_TOPIC (topic m)
              then notification_outlet s else None) as [o|].
    + destruct (Py.getitem (body m) "subject") as [subject|e]; [|discriminate].
      intros _. exists s. split; reflexivity.
    + intros [= <-]. exfalso. apply Hpush. apply pushes_log.
Qed.

(** C6, as the code has it: when the sink rejects the sample of a message
    that would otherwise be pushed, the exception of [push_sample] reaches
    the handler around the loop; it is logged, the sample is lost, and the
    worker stops with its handle cleared without reading the polls that
    follow. *)
Theorem push_failure_stops_worker
    (s : state) (m : message) (i : poll) (rest : list poll) :
  inlet_ready i = Some m ->
  sink_accepts i = false ->
  would_push s m ->
  exists s' : state,
    running (i :: rest) s = Stopped (finally (except SinkError s'))
    /\ errors (trace (finally (except SinkError s')))
       = (errors (trace s) ++ [SinkError])%list
    /\ thread_pipe (finally (except SinkError s')) = None
    /\ pushes (trace (finally (except SinkError s'))) = pushes (trace s).
Proof.
  intros Hi Hsink Hpush.
  destruct (on_inlet_sink_down s m Hpush) as (s' & Hrun & Htrace).
  exists s'. split; [|split; [|split]].
  - apply (running_raise i rest m); [exact Hi | rewrite Hsink; exact Hrun].
  - unfold finally, except. cbn. rewrite Htrace.
    rewrite <- !app_assoc. cbn.
    generalize (trace s). intros t.
    induction t as [|e t IH]; [reflexivity|].
    destruct e as [| | | |r]; cbn; try exact IH.
    destruct r; cbn; rewrite ?IH; reflexivity.
  - reflexivity.
  - rewrite pushes_finally_except, Htrace. reflexivity.
Qed.

Lemma push_failure_stops_worker_witness :
  exists s' : state,
    running [data_sink_down "pupil.0" eye0; data "pupil.1" eye1] both_enabled
    = Stopped (finally (except SinkError s'))
    /\ errors (trace (finally (except SinkError s')))
       = (errors (trace both_enabled) ++ [SinkError])%list
    /\ thread_pipe (finally (except SinkError s')) = None
    /\ pushes (trace (finally (except SinkError s'))) = pushes (trace both_enabled).
Proof.
  apply (push_failure_stops_worker both_enabled
           {| topic := "pupil.0"; body := eye0 |}
           (data_sink_down "pupil.0" eye0) [data "pupil.1" eye1]).
  - reflexivity.
  - reflexivity.
  - eexists. split; [reflexivity | vm_compute; discriminate].
Defined.

(** C6, as the spec words it, fails: one rejected push stops the worker, and
    the message after it is not pushed. *)
Lemma push_failure_not_tolerated :
  stopped (thread_loop 5%float
             [data_sink_down "pupil.0" eye0; data "pupil.1" eye1]
             (plugin true true url0)) = true
  /\ errors (trace (state_of (thread_loop 5%float
             [data_sink_down "pupil.0" eye0; data "pupil.1" eye1]
             (plugin true true url0)))) = [SinkError]
  /\ pushes (trace (state_of (thread_loop 5%float
             [data_sink_down "pupil.0" eye0; data "pupil.1" eye1]
             (plugin true true url0)))) = [].
Proof. repeat split; vm_compute; reflexivity. Qed.

(** C7, as the code has it: on a buffer of two samples the update writes
    slot 0 for source id 0 (and -2), slot 1 for source id 1 (and -1), and
    raises IndexError for every other integer; in the loop that IndexError
    reaches the handler, which logs it, and the worker stops with its handle
    cleared and the buffer as it was. *)
Theorem eyeid_out_of_range_stops_worker
    (s : state) (o : StreamOutlet) (s0 s1 : sample) (m : message) (z : Z)
    (i : poll) (rest : list poll) :
  inlet_ready i = Some m ->
  String.prefix PUPIL_SUB_TOPIC (topic m) = true ->
  pupil_outlet s = Some o ->
  pupil_buffer s = Bound [s0; s1] ->
  body m !! "id" = Some (PyInt z) ->
  Py.is_ok (_generate_primitive_sample (body m)) = true ->
  (forall smp : sample,
     _update_buffer (PyInt z) [s0; s1] smp =
       match z with
       | 0 | -2 => Ok [smp; s1]
       | 1 | -1 => Ok [s0; smp]
       | _ => Raise IndexError
       end)
  /\ (z < -2 \/ 1 < z ->
      running (i :: rest) s = Stopped (finally (except IndexError s))
      /\ thread_pipe (finally (except IndexError s)) = None
      /\ pupil_buffer (finally (except IndexError s)) = Bound [s0; s1]
      /\ pushes (trace (finally (except IndexError s))) = pushes (trace s)).
Proof.
  intros Hi Hpre Ho Hb Hid Hsmp. split.
  - intros smp. apply update_buffer_cases.
  - intros Hz. split; [|split; [|split]].
    + apply (running_raise i rest m); [exact Hi|].
      unfold on_inlet. loop_steps. rewrite Hpre, Ho.
      unfold Py.getitem at 1. rewrite Hid.
      destruct (_generate_primitive_sample (body m)) as [smp|e]; [|discriminate Hsmp].
      rewrite Hb. cbn [read].
      rewrite (update_buffer_out_of_range s0 s1 smp z Hz). reflexivity.
    + reflexivity.
    + cbn. exact Hb.
    + apply pushes_finally_except.
Qed.

Lemma eyeid_out_of_range_stops_worker_witness :
  running [data "pupil.2" (eye_id 2); data "pupil.1" eye1] both_enabled
  = Stopped (finally (except IndexError both_enabled))
  /\ thread_pipe (finally (except IndexError both_enabled)) = None
  /\ pupil_buffer (finally (except IndexError both_enabled))
     = Bound (_create_buffer 5%float)
  /\ pushes (trace (finally (except IndexError both_enabled)))
     = pushes (trace both_enabled).
Proof.
  refine (proj2 (eyeid_out_of_range_stops_worker both_enabled
           (_create_buffered_lsl_outlet url0 "Buffered Pupil Diameter")
           (PyFloat (-1)%float, PyFloat 0%float, PyFloat 5%float)
           (PyFloat (-1)%float, PyFloat 0%float, PyFloat 5%float)
           {| topic := "pupil.2"; body := eye_id 2 |} 2
           (data "pupil.2" (eye_id 2)) [data "pupil.1" eye1]
           _ _ _ _ _ _) _);
    [reflexivity .. | right; reflexivity].
Defined.

(** C7, as the spec words it, fails twice: source id -1 lies outside {0, 1}
    and the update succeeds, writing slot 1; source id 2 raises, and the
    worker stops instead of dropping the message, so the well-formed message
    after it is not pushed. *)
Lemma invalid_eyeid_not_rejected_nor_dropped :
  _update_buffer (PyInt (-1)) (_create_buffer 5%float)
    (PyFloat 3.2%float, PyFloat 0.9%float, PyFloat 100%float)
  = Ok [ (PyFloat (-1)%float, PyFloat 0%float, PyFloat 5%float);
         (PyFloat 3.2%float, PyFloat 0.9%float, PyFloat 100%float) ]
  /\ stopped (thread_loop 5%float
                [data "pupil.2" (eye_id 2); data "pupil.1" eye1]
                (plugin true true url0)) = true
  /\ errors (trace (state_of (thread_loop 5%float
                [data "pupil.2" (eye_id 2); data "pupil.1" eye1]
                (plugin true true url0)))) = [IndexError]
  /\ pushes (trace (state_of (thread_loop 5%float
                [data "pupil.2" (eye_id 2); data "pupil.1" eye1]
                (plugin true true url0)))) = [].
Proof. repeat split; vm_compute; reflexivity. Qed.

(** ** Further properties of the loop *)

(** Scenario A: with the pupil role enabled, a message of eye 0 and then one
    of eye 1 give two pushes; the first combines eye 0 with the initial slot
    of eye 1, the second is [3.2, 3.5, 0.9, 0.8, 100.5]. *)
Theorem two_eyes_two_pushes (t0 : float) (notifications : bool) (url : string) :
  stopped (thread_loop t0 [data "pupil.0" eye0; data "pupil.1" eye1]
             (plugin true notifications url)) = false
  /\ pushes (trace (state_of
       (thread_loop t0 [data "pupil.0" eye0; data "pupil.1" eye1]
          (plugin true notifications url))))
     = [ Numeric [PyFloat 3.2%float; PyFloat (-1)%float; PyFloat 0.9%float;
                  PyFloat 0%float; PyFloat (fmax 100%float t0)];
         Numeric [PyFloat 3.2%float; PyFloat 3.5%float; PyFloat 0.9%float;
                  PyFloat 0.8%float; PyFloat 100.5%float] ].
Proof.
  destruct notifications; (split; [reflexivity|]);
    vm_compute; destruct (PrimFloat.ltb 100 t0); reflexivity.
Qed.

(** Scenario C, role enabled: a notification with a subject is pushed as the
    pair of its subject and the rendering of its payload, and nothing else
    happens. *)
Theorem notification_pushed
    (s : state) (o : StreamOutlet) (m : message) (subject : value) :
  String.prefix NOTIFY_SUB_TOPIC (topic m) = true ->
  notification_outlet s = Some o ->
  body m !! "subject" = Some subject ->
  on_inlet m true s = (Ok tt, emit (Push o (SubjectRepr subject (body m))) s).
Proof.
  intros Hpre Ho Hsub. unfold on_inlet. loop_steps.
  rewrite (notify_is_not_pupil _ Hpre), Hpre, Ho.
  unfold Py.getitem. rewrite Hsub. reflexivity.
Qed.

Lemma notification_pushed_witness :
  on_inlet {| topic := "notify.recording.started";
              body := <["subject" := PyStr "recording.started"]> ∅ |}
    true both_enabled
  = (Ok tt,
     emit (Push (_create_notify_lsl_outlet url0)
             (SubjectRepr (PyStr "recording.started")
                (<["subject" := PyStr "recording.started"]> ∅)))
       both_enabled).
Proof.
  exact (notification_pushed both_enabled (_create_notify_lsl_outlet url0)
           {| topic := "notify.recording.started";
              body := <["subject" := PyStr "recording.started"]> ∅ |}
           (PyStr "recording.started") eq_refl eq_refl eq_refl).
Defined.

(** Scenario C, role disabled: a notification is not pushed and raises
    nothing; the loop logs that it did not handle the topic and goes on. *)
Theorem notification_ignored_when_disabled (s : state) (m : message) (a : bool) :
  String.prefix NOTIFY_SUB_TOPIC (topic m) = true ->
  notification_outlet s = None ->
  on_inlet m a s = (Ok tt, emit (Log (DebugNotHandled (topic m))) s)
  /\ pushes (trace (emit (Log (DebugNotHandled (topic m))) s)) = pushes (trace s).
Proof.
  intros Hpre Ho. split; [|apply pushes_log].
  unfold on_inlet. loop_steps.
  rewrite (notify_is_not_pupil _ Hpre), Hpre, Ho. reflexivity.
Qed.

Lemma notification_ignored_when_disabled_witness :
  on_inlet {| topic := "notify.recording.started";
              body := <["subject" := PyStr "recording.started"]> ∅ |}
    true (state_of (thread_loop 5%float [] (plugin true false url0)))
  = (Ok tt,
     emit (Log (DebugNotHandled "notify.recording.started"))
       (state_of (thread_loop 5%float [] (plugin true false url0))))
  /\ pushes (trace (emit (Log (DebugNotHandled "notify.recording.started"))
                      (state_of (thread_loop 5%float [] (plugin true false url0)))))
     = pushes (trace (state_of (thread_loop 5%float [] (plugin true false url0)))).
Proof.
  exact (notification_ignored_when_disabled
           (state_of (thread_loop 5%float [] (plugin true false url0)))
           {| topic := "notify.recording.started";
              body := <["subject" := PyStr "recording.started"]> ∅ |} true
           eq_refl eq_refl).
Defined.

(** A pupil message is dropped the same way while the pupil outlet is not
    open. *)
Theorem pupil_ignored_when_disabled (s : state) (m : message) (a : bool) :
  String.prefix PUPIL_SUB_TOPIC (topic m) = true ->
  pupil_outlet s = None ->
  on_inlet m a s = (Ok tt, emit (Log (DebugNotHandled (topic m))) s)
  /\ pupil_buffer (emit (Log (DebugNotHandled (topic m))) s) = pupil_buffer s.
Proof.
  intros Hpre Ho. split; [|reflexivity].
  unfold on_inlet. loop_steps. rewrite Hpre, Ho.
  destruct (String.prefix NOTIFY_SUB_TOPIC (topic m)) eqn:Hn.
  - rewrite (notify_is_not_pupil _ Hn) in Hpre. discriminate.
  - reflexivity.
Qed.

Lemma pupil_ignored_when_disabled_witness :
  on_inlet {| topic := "pupil.0"; body := eye0 |} true
    (state_of (thread_loop 5%float [] (plugin false true url0)))
  = (Ok tt,
     emit (Log (DebugNotHandled "pupil.0"))
       (state_of (thread_loop 5%float [] (plugin false true url0))))
  /\ pupil_buffer (emit (Log (DebugNotHandled "pupil.0"))
                     (state_of (thread_loop 5%float [] (plugin false true url0))))
     = pupil_buffer (state_of (thread_loop 5%float [] (plugin false true url0))).
Proof.
  exact (pupil_ignored_when_disabled
           (state_of (thread_loop 5%float [] (plugin false true url0)))
           {| topic := "pupil.0"; body := eye0 |} true eq_refl eq_refl).
Defined.

(** The sample of a payload: the diameter defaults to -1.0, the confidence
    and the timestamp are taken as they are. *)
Theorem generate_primitive_sample_fields (p : gmap string value) (c t : value) :
  p !! "confidence" = Some c ->
  p !! "timestamp" = Some t ->
  _generate_primitive_sample p
  = Ok (match p !! "diameter" with Some d => d | None => PyFloat (-1)%float end, c, t).
Proof.
  intros Hc Ht. unfold _generate_primitive_sample, Py.getitem, Py.get, Py.bind.
  rewrite Hc, Ht. reflexivity.
Qed.

Lemma generate_primitive_sample_fields_witness :
  _generate_primitive_sample eye0_no_confidence = Raise (KeyError "confidence")
  /\ _generate_primitive_sample eye1
     = Ok (match eye1 !! "diameter" with Some d => d | None => PyFloat (-1)%float end,
           PyFloat 0.8%float, PyFloat 100.5%float).
Proof.
  split; [reflexivity|].
  apply (generate_primitive_sample_fields eye1); reflexivity.
Defined.

(** ** What a run of the loop keeps *)

Ltac step_facts :=
  repeat split;
  first [ cbn; lia
        | congruence
        | intros _; reflexivity
        | cbn; rewrite <- ?app_assoc, ?app_nil_r; reflexivity
        | assumption
        | contradiction
        | auto ].

Lemma errors_app (t u : list effect) : errors (t ++ u) = (errors t ++ errors u)%list.
Proof.
  induction t as [|e t IH]; [reflexivity|].
  destruct e as [| | | |r]; cbn; try exact IH.
  destruct r; cbn; rewrite ?IH; reflexivity.
Qed.

Lemma buffer2sample_length (b : buffer) (out : list value) :
  buffer2sample b = Ok out -> List.length out = 5%nat.
Proof.
  unfold buffer2sample, Py.bind.
  destruct (Py.index b 0); [|discriminate].
  destruct (Py.index b 1); [|discriminate].
  destruct (Py.max _ _); [|discriminate].
  intros [= <-]. reflexivity.
Qed.

Lemma update_buffer_length (eyeid : value) (b b' : buffer) (smp : sample) :
  _update_buffer eyeid b smp = Ok b' -> List.length b' = List.length b.
Proof.
  unfold _update_buffer, Py.setitem.
  destruct eyeid as [z| |]; [|discriminate|discriminate].
  destruct (_ && _); [|discriminate].
  intros [= <-]. apply length_insert.
Qed.

Lemma extends_by_refl (s : state) : extends_by s s [].
Proof. unfold extends_by. rewrite app_nil_r. repeat split. Qed.

Lemma quiet_nil po n : quiet po n [].
Proof. repeat split. cbn. lia. Qed.

Lemma two_slots_update (s : state) (eyeid : value) (b b' : buffer) (smp : sample) :
  two_slots s -> pupil_outlet s <> None ->
  pupil_buffer s = Bound b -> _update_buffer eyeid b smp = Ok b' ->
  two_slots (set_pupil_buffer b' s).
Proof.
  intros [Hn | (x & y & Hb)] Ho Hs Hu; [contradiction|].
  right. rewrite Hb in Hs. injection Hs as <-.
  apply update_buffer_length in Hu.
  destruct b' as [|x' [|y' [|z' b']]]; try discriminate Hu.
  exists x', y'. reflexivity.
Qed.

Lemma on_inlet_extends (m : message) (a : bool) (s s' : state) (r : result unit) :
  on_inlet m a s = (r, s') ->
  exists t : list effect,
    extends_by s s' t /\ quiet (pupil_outlet s) 1 t
    /\ notification_outlet s' = notification_outlet s
    /\ pupil_outlets s' = pupil_outlets s
    /\ (two_slots s -> two_slots s').
Proof.
  unfold on_inlet. loop_steps.
  destruct (if String.prefix PUPIL_SUB_TOPIC (topic m) then pupil_outlet s else None)
    as [o|] eqn:Hpo.
  - assert (Hopen : pupil_outlet s <> None).
    { destruct (String.prefix PUPIL_SUB_TOPIC (topic m)); [|discriminate].
      rewrite Hpo. discriminate. }
    destruct (Py.getitem (body m) "id") as [eyeid|e];
      [|intros Hrun; inversion Hrun; subst; clear Hrun; exists []; step_facts].
    destruct (_generate_primitive_sample (body m)) as [smp|e];
      [|intros Hrun; inversion Hrun; subst; clear Hrun; exists []; step_facts].
    destruct (read "pupil_buffer" (pupil_buffer s)) as [b|e] eqn:Hb;
      [|intros Hrun; inversion Hrun; subst; clear Hrun; exists []; step_facts].
    destruct (_update_buffer eyeid b smp) as [b'|e] eqn:Hu;
      [|intros Hrun; inversion Hrun; subst; clear Hrun; exists []; step_facts].
    assert (Hbound : pupil_buffer s = Bound b).
    { destruct (pupil_buffer s); [discriminate|]. injection Hb as ->. reflexivity. }
    assert (Hkeep : two_slots s -> two_slots (set_pupil_buffer b' s)).
    { intros H2. exact (two_slots_update s eyeid b b' smp H2 Hopen Hbound Hu). }
    destruct (buffer2sample b') as [out|e] eqn:Hout;
      [|intros Hrun; inversion Hrun; subst; clear Hrun; exists []; step_facts].
    pose proof (buffer2sample_length _ _ Hout) as Hlen.
    assert (Hfit : forallb fits_channels [Numeric out] = true).
    { cbn. rewrite Hlen. reflexivity. }
    destruct a;
      [|intros Hrun; inversion Hrun; subst; clear Hrun; exists []; step_facts].
    destruct (last_item out) as [t|e];
      intros Hrun; inversion Hrun; subst; clear Hrun.
    + exists [Push o (Numeric out); Log (DebugSendAt t)]. step_facts.
    + exists [Push o (Numeric out)]. step_facts.
  - destruct (if String.prefix NOTIFY_SUB_TOPIC (topic m)
              then notification_outlet s else None) as [o|].
    + destruct (Py.getitem (body m) "subject") as [subject|e];
        [|intros Hrun; inversion Hrun; subst; clear Hrun; exists []; step_facts].
      destruct a; intros Hrun; inversion Hrun; subst; clear Hrun.
      * exists [Push o (SubjectRepr subject (body m))]. step_facts.
      * exists []. step_facts.
    + intros Hrun; inversion Hrun; subst; clear Hrun.
      exists [Log (DebugNotHandled (topic m))]. step_facts.
Qed.

Lemma on_pipe_extends (c : command) (s s' : state) (r : result bool) :
  on_pipe c s = (r, s') ->
  exists t : list effect,
    extends_by s s' t /\ quiet (pupil_outlet s) 0 t
    /\ pupil_buffer s' = pupil_buffer s
    /\ (r = Ok true -> s' = s /\ cmd c = "Exit").
Proof.
  unfold on_pipe.
  destruct (String.eqb (cmd c) "Exit") eqn:Hexit.
  { intros Hrun; inversion Hrun; subst; clear Hrun.
    exists []. apply String.eqb_eq in Hexit. step_facts. }
  destruct (String.eqb (cmd c) "Subscribe").
  { cbv beta iota zeta delta [bindL gets lift modify perform log ret].
    cbn [emit pupil_outlet notification_outlet].
    destruct (String.eqb (arg c) PUPIL_SUB_TOPIC && negb (truthy (pupil_outlet s))).
    - cbn. intros Hrun; inversion Hrun; subst; clear Hrun.
      exists [Subscribe (arg c)]. step_facts.
    - destruct (String.eqb (arg c) NOTIFY_SUB_TOPIC
                && negb (truthy (notification_outlet s)));
        cbn; intros Hrun; inversion Hrun; subst; clear Hrun.
      + exists [Subscribe (arg c)]. step_facts.
      + exists [Subscribe (arg c); Log (DebugSubscribed (arg c))]. step_facts. }
  destruct (String.eqb (cmd c) "Unsubscribe").
  { cbv beta iota zeta delta [bindL gets lift modify perform log ret].
    cbn [emit pupil_outlets notification_outlet].
    destruct (String.eqb (arg c) PUPIL_SUB_TOPIC).
    - cbn. destruct (pupil_outlets s) as [|po]; cbn.
      + intros Hrun; inversion Hrun; subst; clear Hrun.
        exists [Unsubscribe (arg c)]. step_facts.
      + destruct (truthy po); cbn.
        * intros Hrun; inversion Hrun; subst; clear Hrun.
          exists [Unsubscribe (arg c); Log (DebugUnsubscribed (arg c))]. step_facts.
        * destruct (String.eqb (arg c) NOTIFY_SUB_TOPIC
                    && truthy (notification_outlet s));
            cbn; intros Hrun; inversion Hrun; subst; clear Hrun;
            exists [Unsubscribe (arg c); Log (DebugUnsubscribed (arg c))]; step_facts.
    - cbn.
      destruct (String.eqb (arg c) NOTIFY_SUB_TOPIC && truthy (notification_outlet s));
        cbn; intros Hrun; inversion Hrun; subst; clear Hrun;
        exists [Unsubscribe (arg c); Log (DebugUnsubscribed (arg c))]; step_facts. }
  intros Hrun; inversion Hrun; subst; clear Hrun. exists []. step_facts.
Qed.

Lemma extends_by_trans (s1 s2 s3 : state) (t u : list effect) :
  extends_by s1 s2 t -> extends_by s2 s3 u -> extends_by s1 s3 (t ++ u).
Proof.
  unfold extends_by.
  intros (A1 & A2 & A3 & A4 & A5 & A6 & A7) (B1 & B2 & B3 & B4 & B5 & B6 & B7).
  rewrite B1, B2, B3, B4, B5, B6, B7, A7, app_assoc. repeat split; assumption.
Qed.

Lemma quiet_app (po : option StreamOutlet) (n k : nat) (t u : list effect) :
  quiet po n t -> quiet po k u -> quiet po (n + k) (t ++ u).
Proof.
  unfold quiet. intros (A1 & A2 & A3 & A4) (B1 & B2 & B3 & B4).
  rewrite errors_app, pushes_app, A1, B1, length_app, forallb_app, A3, B3.
  repeat split; [lia|].
  intros Hpo. rewrite existsb_app, (A4 Hpo), (B4 Hpo). reflexivity.
Qed.

Lemma two_slots_same (s s' : state) :
  pupil_outlet s' = pupil_outlet s -> pupil_buffer s' = pupil_buffer s ->
  two_slots s -> two_slots s'.
Proof. unfold two_slots. intros -> ->. exact id. Qed.

Lemma iteration_extends (i : poll) (s s' : state) (r : result bool) :
  iteration i s = (r, s') ->
  exists t : list effect,
    extends_by s s' t /\ quiet (pupil_outlet s) (reads i) t
    /\ (two_slots s -> two_slots s')
    /\ (r = Ok true -> exists c, pipe_ready i = Some c /\ cmd c = "Exit").
Proof.
  unfold iteration, reads. unfold bindL at 1.
  destruct (inlet_ready i) as [m|].
  - destruct (on_inlet m (sink_accepts i) s) as [[[]|e] s1] eqn:Hin;
      destruct (on_inlet_extends _ _ _ _ _ Hin) as (t1 & E1 & Q1 & _ & _ & T1).
    + destruct (pipe_ready i) as [c|].
      * intros Hp. destruct (on_pipe_extends _ _ _ _ Hp) as (t2 & E2 & Q2 & B2 & X2).
        exists (t1 ++ t2)%list. split; [exact (extends_by_trans _ _ _ _ _ E1 E2)|].
        split; [|split].
        -- replace (pupil_outlet s1) with (pupil_outlet s) in Q2
             by (symmetry; apply E1).
           exact (quiet_app _ 1 0 _ _ Q1 Q2).
        -- intros H2. apply (two_slots_same s1); [apply E2 | exact B2 | exact (T1 H2)].
        -- intros Hr. exists c. split; [reflexivity | apply (X2 Hr)].
      * cbv beta iota zeta delta [ret].
        intros Hrun; inversion Hrun; subst; clear Hrun. exists t1.
        split; [exact E1|]. split; [exact Q1|]. split; [exact T1 | congruence].
    + intros Hrun; inversion Hrun; subst; clear Hrun. exists t1.
      split; [exact E1|]. split; [exact Q1|]. split; [exact T1 | congruence].
  - cbv beta iota zeta delta [ret].
    destruct (pipe_ready i) as [c|].
    + intros Hp. destruct (on_pipe_extends _ _ _ _ Hp) as (t2 & E2 & Q2 & B2 & X2).
      exists t2. split; [exact E2|]. split; [exact Q2|]. split.
      * intros H2. apply (two_slots_same s); [apply E2 | exact B2 | exact H2].
      * intros Hr. exists c. split; [reflexivity | apply (X2 Hr)].
    + intros Hrun; inversion Hrun; subst; clear Hrun.
      exists []. split; [apply extends_by_refl|].
      split; [apply quiet_nil|]. split; [exact id | congruence].
Qed.

Lemma running_extends (polls : list poll) (s : state) :
  exists (pre : state) (t : list effect),
    extends_by s pre t /\ quiet (pupil_outlet s) (messages polls) t
    /\ (two_slots s -> two_slots pre)
    /\ ends_in (running polls s) pre.
Proof.
  revert s. induction polls as [|i rest IH]; intros s.
  - exists s, []. split; [apply extends_by_refl|]. split; [apply quiet_nil|].
    split; [exact id | left; reflexivity].
  - cbn [running messages].
    destruct (iteration i s) as [[[|]|e] s1] eqn:Hit;
      destruct (iteration_extends _ _ _ _ Hit) as (t1 & E1 & Q1 & T1 & _).
    + exists s1, t1. split; [exact E1|]. split.
      * unfold reads in Q1. destruct (inlet_ready i).
        -- destruct Q1 as (A & B & C & D). repeat split; try assumption. lia.
        -- destruct Q1 as (A & B & C & D). repeat split; try assumption. lia.
      * split; [exact T1 | right; left; reflexivity].
    + destruct (IH s1) as (pre & t2 & E2 & Q2 & T2 & F2).
      exists pre, (t1 ++ t2)%list. split; [exact (extends_by_trans _ _ _ _ _ E1 E2)|].
      split; [|split; [auto | exact F2]].
      replace (pupil_outlet s1) with (pupil_outlet s) in Q2 by (symmetry; apply E1).
      pose proof (quiet_app _ _ _ _ _ Q1 Q2) as Q.
      unfold reads in Q. destruct (inlet_ready i); exact Q.
    + exists s1, t1. split; [exact E1|]. split.
      * unfold reads in Q1. destruct (inlet_ready i).
        -- destruct Q1 as (A & B & C & D). repeat split; try assumption. lia.
        -- destruct Q1 as (A & B & C & D). repeat split; try assumption. lia.
      * split; [exact T1 | right; right; exists e; reflexivity].
Qed.

Lemma running_app (p q : list poll) (s : state) :
  running (p ++ q) s =
    match running p s with
    | Polling s' => running q s'
    | Stopped s' => Stopped s'
    end.
Proof.
  revert s. induction p as [|i p IH]; intros s; [reflexivity|].
  cbn [app running]. destruct (iteration i s) as [[[|]|e] s1]; auto.
Qed.

Lemma running_exit (i : poll) (rest : list poll) (c : command) (s : state) :
  pipe_ready i = Some c -> cmd c = "Exit" ->
  stopped (running (i :: rest) s) = true.
Proof.
  intros Hp Hc. cbn [running]. unfold iteration. rewrite Hp.
  unfold bindL at 1.
  destruct (match inlet_ready i with
            | Some m => on_inlet m (sink_accepts i)
            | None => ret ()
            end s) as [[[]|e] s1]; [|reflexivity].
  unfold on_pipe. rewrite Hc. reflexivity.
Qed.

Lemma thread_loop_start (t0 : float) (polls : list poll) (rp rn : bool) (url : string) :
  thread_loop t0 polls (plugin rp rn url)
  = running polls (state_of (thread_loop t0 [] (plugin rp rn url))).
Proof. destruct rp, rn; reflexivity. Qed.

Lemma ends_in_pushes (st : status) (pre : state) :
  ends_in st pre -> pushes (trace (state_of st)) = pushes (trace pre).
Proof.
  intros [-> | [-> | [e ->]]]; cbn [state_of]; [reflexivity| |].
  - unfold finally. cbn. rewrite pushes_app. cbn. apply app_nil_r.
  - apply pushes_finally_except.
Qed.

Lemma ends_in_frame (st : status) (pre : state) :
  ends_in st pre ->
  relay_pupil (state_of st) = relay_pupil pre
  /\ relay_notifications (state_of st) = relay_notifications pre
  /\ ipc_sub_url (state_of st) = ipc_sub_url pre
  /\ pupil_outlet (state_of st) = pupil_outlet pre
  /\ notification_outlet (state_of st) = notification_outlet pre
  /\ pupil_buffer (state_of st) = pupil_buffer pre.
Proof. intros [-> | [-> | [e ->]]]; repeat split. Qed.

(** The worker only reads the settings: whatever it is given to process, the
    two relay flags and the url stay as they were, so [get_init_dict] stores
    what the host set, and the pupil outlet is the one of the start. *)
Theorem worker_leaves_settings_alone (polls : list poll) (s : state) :
  get_init_dict (state_of (running polls s)) = get_init_dict s
  /\ ipc_sub_url (state_of (running polls s)) = ipc_sub_url s
  /\ pupil_outlet (state_of (running polls s)) = pupil_outlet s.
Proof.
  destruct (running_extends polls s) as (pre & t & E & _ & _ & F).
  destruct (ends_in_frame _ _ F) as (F1 & F2 & F3 & F4 & _).
  destruct E as (E1 & E2 & E3 & _ & _ & E6 & _).
  unfold get_init_dict. rewrite F1, F2, F3, F4, E1, E2, E3, E6. repeat split.
Qed.

Lemma stopped_state (polls : list poll) (s : state) :
  (stopped (running polls s) = true ->
     thread_pipe (state_of (running polls s)) = None
     /\ alive (state_of (running polls s)) = false)
  /\ (stopped (running polls s) = false ->
        thread_pipe (state_of (running polls s)) = thread_pipe s
        /\ alive (state_of (running polls s)) = alive s).
Proof.
  destruct (running_extends polls s) as (pre & t & E & _ & _ & [-> | [-> | [e ->]]]);
    cbn [stopped state_of]; (split; [|]); intros H; try discriminate H.
  - split; apply E.
  - split; reflexivity.
  - split; reflexivity.
Qed.

(** The handle tells the host whether the worker returned: when the worker
    has stopped, the handle is cleared and [alive] is false; while it is
    still polling, both are as they were. *)
Theorem handle_cleared_when_stopped (polls : list poll) (s : state) :
  (stopped (running polls s) = true ->
     thread_pipe (state_of (running polls s)) = None
     /\ alive (state_of (running polls s)) = false)
  /\ (stopped (running polls s) = false ->
        thread_pipe (state_of (running polls s)) = thread_pipe s
        /\ alive (state_of (running polls s)) = alive s).
Proof.
  split; intros H.
  - exact (proj1 (stopped_state polls s) H).
  - exact (proj2 (stopped_state polls s) H).
Qed.

(** [cleanup] ends: when it sends its command, the worker stops on it
    however many polls it still has to go through first, the handle the host
    sleeps on is cleared, and a second [cleanup] sends nothing. *)
Theorem cleanup_stops_worker (s : state) (c : command) (polls rest : list poll) :
  cleanup s = Some c ->
  stopped (running (polls ++ deliver c :: rest) s) = true
  /\ thread_pipe (state_of (running (polls ++ deliver c :: rest) s)) = None
  /\ cleanup (state_of (running (polls ++ deliver c :: rest) s)) = None.
Proof.
  unfold cleanup, shutdown_thread_loop.
  destruct (thread_pipe s); [|discriminate]. intros [= <-].
  assert (Hs : stopped (running (polls ++ deliver {| cmd := "Exit"; arg := "" |} :: rest) s)
               = true).
  { rewrite running_app. destruct (running polls s) as [s'|s']; [|reflexivity].
    apply (running_exit _ _ {| cmd := "Exit"; arg := "" |}); reflexivity. }
  destruct (stopped_state
              (polls ++ deliver {| cmd := "Exit"; arg := "" |} :: rest) s) as [H _].
  destruct (H Hs) as [Hp _]. rewrite Hp. repeat split. exact Hs.
Qed.

Lemma cleanup_stops_worker_witness :
  stopped (running ([data "pupil.0" eye0; data "pupil.1" eye1]
                    ++ deliver {| cmd := "Exit"; arg := "" |} :: [data "pupil.0" eye0])
             both_enabled) = true
  /\ thread_pipe (state_of
       (running ([data "pupil.0" eye0; data "pupil.1" eye1]
                 ++ deliver {| cmd := "Exit"; arg := "" |} :: [data "pupil.0" eye0])
          both_enabled)) = None
  /\ cleanup (state_of
       (running ([data "pupil.0" eye0; data "pupil.1" eye1]
                 ++ deliver {| cmd := "Exit"; arg := "" |} :: [data "pupil.0" eye0])
          both_enabled)) = None.
Proof.
  exact (cleanup_stops_worker both_enabled {| cmd := "Exit"; arg := "" |}
           [data "pupil.0" eye0; data "pupil.1" eye1] [data "pupil.0" eye0] eq_refl).
Defined.

Lemma started_trace (t0 : float) (rp rn : bool) (url : string) :
  pushes (trace (state_of (thread_loop t0 [] (plugin rp rn url)))) = []
  /\ errors (trace (state_of (thread_loop t0 [] (plugin rp rn url)))) = []
  /\ truthy (pupil_outlet (state_of (thread_loop t0 [] (plugin rp rn url)))) = rp
  /\ two_slots (state_of (thread_loop t0 [] (plugin rp rn url))).
Proof.
  destruct rp, rn; repeat split; try (left; reflexivity);
    right; eexists; eexists; reflexivity.
Qed.

Lemma run_pushes (polls : list poll) (s : state) :
  exists t : list effect,
    quiet (pupil_outlet s) (messages polls) t
    /\ pushes (trace (state_of (running polls s))) = (pushes (trace s) ++ pushes t)%list.
Proof.
  destruct (running_extends polls s) as (pre & t & E & Q & _ & F).
  exists t. split; [exact Q|].
  rewrite (ends_in_pushes _ _ F).
  destruct E as (_ & _ & _ & _ & _ & _ & ->). apply pushes_app.
Qed.

(** One message gives at most one push: after any polls the worker has
    pushed at most as many samples more as polls carried a message. *)
Theorem at_most_one_push_per_message (polls : list poll) (s : state) :
  (List.length (pushes (trace (state_of (running polls s))))
   <= List.length (pushes (trace s)) + messages polls)%nat.
Proof.
  destruct (run_pushes polls s) as (t & (_ & Hn & _) & ->).
  rewrite length_app. lia.
Qed.

(** Every sample the worker pushes fits its outlet: whatever the settings,
    the clock, the url and the polls, a sample pushed to the pupil outlet has
    exactly the five values of the outlet's five channels. *)
Theorem pushed_samples_fit_channels
    (t0 : float) (polls : list poll) (rp rn : bool) (url : string) :
  forallb fits_channels
    (pushes (trace (state_of (thread_loop t0 polls (plugin rp rn url))))) = true.
Proof.
  rewrite thread_loop_start.
  destruct (run_pushes polls (state_of (thread_loop t0 [] (plugin rp rn url))))
    as (t & (_ & _ & Hfit & _) & ->).
  destruct (started_trace t0 rp rn url) as (-> & _).
  exact Hfit.
Qed.

(** The pupil role cannot be switched on while the worker runs: started
    with [relay_pupil] off, the worker never pushes a five-channel sample,
    whatever messages and commands it is given. *)
Theorem pupil_never_relayed_when_started_off
    (t0 : float) (polls : list poll) (rn : bool) (url : string) :
  existsb is_numeric
    (pushes (trace (state_of (thread_loop t0 polls (plugin false rn url))))) = false.
Proof.
  rewrite thread_loop_start.
  destruct (run_pushes polls (state_of (thread_loop t0 [] (plugin false rn url))))
    as (t & (_ & _ & _ & Hnum) & ->).
  destruct (started_trace t0 false rn url) as (-> & _ & Hopen & _).
  apply Hnum.
  destruct (pupil_outlet _); [discriminate Hopen | reflexivity].
Qed.

(** The buffer keeps its two slots: in every state the worker reaches, if
    the pupil outlet is open then [pupil_buffer] is bound to a list of
    exactly two samples. *)
Theorem buffer_keeps_two_slots
    (t0 : float) (polls : list poll) (rp rn : bool) (url : string) :
  two_slots (state_of (thread_loop t0 polls (plugin rp rn url))).
Proof.
  rewrite thread_loop_start.
  destruct (running_extends polls (state_of (thread_loop t0 [] (plugin rp rn url))))
    as (pre & t & _ & _ & T & F).
  destruct (started_trace t0 rp rn url) as (_ & _ & _ & H2).
  specialize (T H2).
  destruct (ends_in_frame _ _ F) as (_ & _ & _ & Fo & _ & Fb).
  unfold two_slots. rewrite Fo, Fb. exact T.
Qed.

(** The worker logs an error only when it stops, and never more than one. *)
Theorem at_most_one_error_logged
    (t0 : float) (polls : list poll) (rp rn : bool) (url : string) :
  (List.length (errors (trace (state_of (thread_loop t0 polls (plugin rp rn url)))))
   <= 1)%nat
  /\ (stopped (thread_loop t0 polls (plugin rp rn url)) = false ->
      errors (trace (state_of (thread_loop t0 polls (plugin rp rn url)))) = []).
Proof.
  rewrite thread_loop_start.
  destruct (running_extends polls (state_of (thread_loop t0 [] (plugin rp rn url))))
    as (pre & t & E & (Herr & _) & _ & F).
  destruct (started_trace t0 rp rn url) as (_ & H0 & _).
  assert (Hpre : errors (trace pre) = []).
  { destruct E as (_ & _ & _ & _ & _ & _ & ->). rewrite errors_app, H0, Herr.
    reflexivity. }
  destruct F as [-> | [-> | [e ->]]]; cbn [state_of stopped].
  - rewrite Hpre. split; [cbn; lia | reflexivity].
  - unfold finally. cbn. rewrite errors_app, Hpre. split; [cbn; lia | discriminate].
  - unfold finally, except. cbn. rewrite !errors_app, Hpre.
    split; [cbn; lia | discriminate].
Qed.

(** ** Messages and commands, case by case *)

(** A well-formed pupil message on an open pupil outlet: the slot of its eye
    is replaced by its sample (diameter -1.0 when absent) and exactly one
    sample is pushed, made of both slots with the greater of the two
    timestamps. *)
Theorem pupil_message_relayed
    (s : state) (o : StreamOutlet) (s0 s1 : sample) (t0 t1 t : float)
    (m : message) (z : Z) (c : value) :
  String.prefix PUPIL_SUB_TOPIC (topic m) = true ->
  pupil_outlet s = Some o ->
  pupil_buffer s = Bound [s0; s1] ->
  timestamp_of s0 = PyFloat t0 ->
  timestamp_of s1 = PyFloat t1 ->
  body m !! "id" = Some (PyInt z) ->
  z = 0 \/ z = 1 ->
  body m !! "confidence" = Some c ->
  body m !! "timestamp" = Some (PyFloat t) ->
  exists s' : state,
    on_inlet m true s = (Ok tt, s')
    /\ pupil_buffer s'
       = Bound (<[Z.to_nat z := (Py.get (body m) "diameter" (PyFloat (-1)%float),
                                  c, PyFloat t)]> [s0; s1])
    /\ pushes (trace s')
       = (pushes (trace s) ++
          [Numeric
             (match z with
              | 0 => [Py.get (body m) "diameter" (PyFloat (-1)%float); diameter_of s1;
                      c; confidence_of s1; PyFloat (fmax t t1)]
              | _ => [diameter_of s0; Py.get (body m) "diameter" (PyFloat (-1)%float);
                      confidence_of s0; c; PyFloat (fmax t0 t)]
              end)])%list.
Proof.
  destruct s0 as [[d0 c0] u0], s1 as [[d1 c1] u1]. cbn [timestamp_of snd].
  intros Hpre Ho Hb -> -> Hid Hz Hc Ht.
  unfold on_inlet. loop_steps. rewrite Hpre, Ho.
  unfold Py.getitem at 1. rewrite Hid.
  unfold _generate_primitive_sample, Py.getitem, Py.bind. rewrite Hc, Ht.
  rewrite Hb. cbn [read].
  destruct Hz as [-> | ->]; cbn.
  - destruct (PrimFloat.ltb t t1) eqn:Hlt; eexists;
      (split; [reflexivity|]); (split; [reflexivity|]);
      cbn; rewrite !pushes_app; cbn; rewrite app_nil_r; unfold fmax; rewrite Hlt;
      reflexivity.
  - destruct (PrimFloat.ltb t0 t) eqn:Hlt; eexists;
      (split; [reflexivity|]); (split; [reflexivity|]);
      cbn; rewrite !pushes_app; cbn; rewrite app_nil_r; unfold fmax; rewrite Hlt;
      reflexivity.
Qed.

Lemma pupil_message_relayed_witness :
  exists s' : state,
    on_inlet {| topic := "pupil.1"; body := eye1 |} true both_enabled = (Ok tt, s')
    /\ pupil_buffer s'
       = Bound (<[Z.to_nat 1 := (Py.get eye1 "diameter" (PyFloat (-1)%float),
                                  PyFloat 0.8%float, PyFloat 100.5%float)]>
                  (_create_buffer 5%float))
    /\ pushes (trace s')
       = (pushes (trace both_enabled) ++
          [Numeric [PyFloat (-1)%float; Py.get eye1 "diameter" (PyFloat (-1)%float);
                    PyFloat 0%float; PyFloat 0.8%float;
                    PyFloat (fmax 5%float 100.5%float)]])%list.
Proof.
  exact (pupil_message_relayed both_enabled
           (_create_buffered_lsl_outlet url0 "Buffered Pupil Diameter")
           (PyFloat (-1)%float, PyFloat 0%float, PyFloat 5%float)
           (PyFloat (-1)%float, PyFloat 0%float, PyFloat 5%float)
           5%float 5%float 100.5%float
           {| topic := "pupil.1"; body := eye1 |} 1 (PyFloat 0.8%float)
           eq_refl eq_refl eq_refl eq_refl eq_refl eq_refl (or_intror eq_refl)
           eq_refl eq_refl).
Defined.

(** A command that is none of ['Exit'], ['Subscribe'], ['Unsubscribe'] does
    nothing at all: the state and the trace are as before, not even a log
    record is written, and the loop goes on. *)
Theorem unknown_command_ignored (c : command) (s : state) :
  cmd c <> "Exit" -> cmd c <> "Subscribe" -> cmd c <> "Unsubscribe" ->
  on_pipe c s = (Ok false, s).
Proof.
  intros H1 H2 H3. unfold on_pipe.
  apply String.eqb_neq in H1, H2, H3. rewrite H1, H2, H3. reflexivity.
Qed.

Lemma unknown_command_ignored_witness :
  on_pipe {| cmd := "exit"; arg := "" |} both_enabled = (Ok false, both_enabled).
Proof.
  apply (unknown_command_ignored {| cmd := "exit"; arg := "" |} both_enabled);
    discriminate.
Defined.

(** A message whose topic starts with neither ['pupil.'] nor ['notify.'] (a
    gaze message, say) is dropped whatever roles are enabled: the only effect
    is the debug record that the topic was not handled. *)
Theorem unrecognized_topic_dropped (m : message) (a : bool) (s : state) :
  String.prefix PUPIL_SUB_TOPIC (topic m) = false ->
  String.prefix NOTIFY_SUB_TOPIC (topic m) = false ->
  on_inlet m a s = (Ok tt, emit (Log (DebugNotHandled (topic m))) s).
Proof.
  intros H1 H2. unfold on_inlet. loop_steps. rewrite H1, H2. reflexivity.
Qed.

Lemma unrecognized_topic_dropped_witness :
  on_inlet {| topic := "gaze.2d.0"; body := eye0 |} true both_enabled
  = (Ok tt, emit (Log (DebugNotHandled "gaze.2d.0")) both_enabled).
Proof.
  exact (unrecognized_topic_dropped {| topic := "gaze.2d.0"; body := eye0 |} true
           both_enabled eq_refl eq_refl).
Defined.

(** [Subscribe] and [Unsubscribe] pass any topic on to the transport: for a
    topic other than the two the plugin knows, the transport call and the
    debug record are all that happens, and no outlet is touched. *)
Theorem other_topic_only_reaches_transport (c : command) (s : state) :
  arg c <> PUPIL_SUB_TOPIC -> arg c <> NOTIFY_SUB_TOPIC ->
  (cmd c = "Subscribe" ->
     on_pipe c s = (Ok false, emit (Log (DebugSubscribed (arg c)))
                                (emit (Subscribe (arg c)) s)))
  /\ (cmd c = "Unsubscribe" ->
        on_pipe c s = (Ok false, emit (Log (DebugUnsubscribed (arg c)))
                                   (emit (Unsubscribe (arg c)) s))).
Proof.
  intros H1 H2. apply String.eqb_neq in H1, H2.
  split; intros Hc; unfold on_pipe; rewrite Hc; cbn [String.eqb Ascii.eqb Bool.eqb];
    loop_steps; rewrite H1, H2; reflexivity.
Qed.

Lemma other_topic_only_reaches_transport_witness :
  on_pipe {| cmd := "Subscribe"; arg := "gaze." |} both_enabled
  = (Ok false, emit (Log (DebugSubscribed "gaze."))
                 (emit (Subscribe "gaze.") both_enabled)).
Proof.
  refine (proj1 (other_topic_only_reaches_transport
                   {| cmd := "Subscribe"; arg := "gaze." |} both_enabled _ _) eq_refl);
    discriminate.
Defined.

Lemma on_inlet_notify_open
    (s : state) (o : StreamOutlet) (m : message) (subject : value) :
  String.prefix NOTIFY_SUB_TOPIC (topic m) = true ->
  notification_outlet s = Some o ->
  body m !! "subject" = Some subject ->
  on_inlet m true s = (Ok tt, emit (Push o (SubjectRepr subject (body m))) s).
Proof.
  intros Hpre Ho Hsub. unfold on_inlet. loop_steps.
  rewrite (notify_is_not_pupil _ Hpre), Hpre, Ho.
  unfold Py.getitem. rewrite Hsub. reflexivity.
Qed.

Lemma on_inlet_notify_closed (s : state) (m : message) (a : bool) :
  String.prefix NOTIFY_SUB_TOPIC (topic m) = true ->
  notification_outlet s = None ->
  on_inlet m a s = (Ok tt, emit (Log (DebugNotHandled (topic m))) s).
Proof.
  intros Hpre Ho. unfold on_inlet. loop_steps.
  rewrite (notify_is_not_pupil _ Hpre), Hpre, Ho. reflexivity.
Qed.

Lemma on_pipe_unsubscribe_notify (s : state) :
  exists s' : state,
    on_pipe unsubscribe_notify s = (Ok false, s')
    /\ notification_outlet s' = None
    /\ relay_notifications s' = relay_notifications s
    /\ pushes (trace s') = pushes (trace s)
    /\ unsubscribed (trace s') = (unsubscribed (trace s) ++ [NOTIFY_SUB_TOPIC])%list.
Proof.
  unfold on_pipe, unsubscribe_notify. cbn [cmd arg].
  change (String.eqb "Unsubscribe" "Exit") with false.
  change (String.eqb "Unsubscribe" "Subscribe") with false.
  change (String.eqb "Unsubscribe" "Unsubscribe") with true.
  change (String.eqb NOTIFY_SUB_TOPIC PUPIL_SUB_TOPIC) with false.
  change (String.eqb NOTIFY_SUB_TOPIC NOTIFY_SUB_TOPIC) with true.
  loop_steps. cbn [emit notification_outlet andb].
  destruct (notification_outlet s) as [o|] eqn:Ho; cbn [truthy]; eexists;
    (split; [reflexivity|]); cbn;
    rewrite ?Ho, !pushes_app, !unsubscribed_app; cbn; rewrite ?app_nil_r;
    repeat split.
Qed.

(** Once [Unsubscribe] for the notification topic has been processed, the
    notification outlet is gone: a notification that arrives in the next poll
    is not pushed, and the loop goes on polling. *)
Theorem notifications_dropped_after_unsubscribe
    (s : state) (m : message) (a : bool) :
  String.prefix NOTIFY_SUB_TOPIC (topic m) = true ->
  exists s' : state,
    running [ deliver unsubscribe_notify;
              {| inlet_ready := Some m; pipe_ready := None; sink_accepts := a |} ] s
    = Polling s'
    /\ notification_outlet s' = None
    /\ pushes (trace s') = pushes (trace s).
Proof.
  intros Hpre.
  destruct (on_pipe_unsubscribe_notify s) as (s1 & Hrun & Hn & _ & Hp & _).
  cbn [running]. unfold iteration at 1. cbn [deliver inlet_ready pipe_ready].
  unfold bindL at 1. cbv beta iota zeta delta [ret]. rewrite Hrun.
  unfold iteration. cbn [inlet_ready pipe_ready sink_accepts].
  unfold bindL at 1. rewrite (on_inlet_notify_closed s1 m a Hpre Hn).
  cbv beta iota zeta delta [ret].
  eexists. split; [reflexivity|]. split; [exact Hn|].
  rewrite pushes_log. exact Hp.
Qed.

Lemma notifications_dropped_after_unsubscribe_witness :
  exists s' : state,
    running [ deliver unsubscribe_notify;
              {| inlet_ready :=
                   Some {| topic := "notify.recording.started";
                           body := <["subject" := PyStr "recording.started"]> ∅ |};
                 pipe_ready := None; sink_accepts := true |} ] both_enabled
    = Polling s'
    /\ notification_outlet s' = None
    /\ pushes (trace s') = pushes (trace both_enabled).
Proof.
  exact (notifications_dropped_after_unsubscribe both_enabled
           {| topic := "notify.recording.started";
              body := <["subject" := PyStr "recording.started"]> ∅ |} true eq_refl).
Defined.

(** Within one poll the message comes first: a notification that is ready
    together with the [Unsubscribe] command for its topic is still pushed,
    and only then is the outlet given up. *)
Theorem message_relayed_before_unsubscribe
    (s : state) (o : StreamOutlet) (m : message) (subject : value) :
  String.prefix NOTIFY_SUB_TOPIC (topic m) = true ->
  notification_outlet s = Some o ->
  body m !! "subject" = Some subject ->
  exists s' : state,
    running [ {| inlet_ready := Some m; pipe_ready := Some unsubscribe_notify;
                 sink_accepts := true |} ] s
    = Polling s'
    /\ pushes (trace s') = (pushes (trace s) ++ [SubjectRepr subject (body m)])%list
    /\ notification_outlet s' = None.
Proof.
  intros Hpre Ho Hsub.
  cbn [running]. unfold iteration. cbn [inlet_ready pipe_ready sink_accepts].
  unfold bindL at 1. rewrite (on_inlet_notify_open s o m subject Hpre Ho Hsub).
  destruct (on_pipe_unsubscribe_notify (emit (Push o (SubjectRepr subject (body m))) s))
    as (s1 & -> & Hn & _ & Hp & _).
  eexists. split; [reflexivity|]. split; [|exact Hn].
  rewrite Hp. cbn. rewrite pushes_app. reflexivity.
Qed.

Lemma message_relayed_before_unsubscribe_witness :
  exists s' : state,
    running [ {| inlet_ready :=
                   Some {| topic := "notify.recording.started";
                           body := <["subject" := PyStr "recording.started"]> ∅ |};
                 pipe_ready := Some unsubscribe_notify;
                 sink_accepts := true |} ] both_enabled
    = Polling s'
    /\ pushes (trace s')
       = (pushes (trace both_enabled)
          ++ [SubjectRepr (PyStr "recording.started")
                (<["subject" := PyStr "recording.started"]> ∅)])%list
    /\ notification_outlet s' = None.
Proof.
  exact (message_relayed_before_unsubscribe both_enabled
           (_create_notify_lsl_outlet url0)
           {| topic := "notify.recording.started";
              body := <["subject" := PyStr "recording.started"]> ∅ |}
           (PyStr "recording.started") eq_refl eq_refl eq_refl).
Defined.

(** ** The host side *)

(** The settings survive a restart: after the two switches were set to [v]
    and [w], what [get_init_dict] stores, passed back to [__init__] as
    keywords, gives a plugin with [relay_pupil = v] and
    [relay_notifications = w]. *)
Theorem settings_round_trip (s : state) (v w : bool) (url : string) :
  __init__ url
    (get_init_dict (switch_relay_notifications w (switch_relay_pupil v s).1).1
       !! "relay_pupil")
    (get_init_dict (switch_relay_notifications w (switch_relay_pupil v s).1).1
       !! "relay_notifications")
  = plugin v w url.
Proof. reflexivity. Qed.

(** Turning the notification switch off while the worker runs: the flag
    becomes false, and on the command the switch sends the worker calls
    [inlet.unsubscribe('notify.')], gives up the notification outlet, pushes
    nothing and goes on polling. *)
Theorem switch_off_notifications_closes_outlet (s : state) (c : command) :
  (switch_relay_notifications false s).2 = Ok c ->
  exists s' : state,
    running [deliver c] (switch_relay_notifications false s).1 = Polling s'
    /\ relay_notifications s' = false
    /\ notification_outlet s' = None
    /\ unsubscribed (trace s') = (unsubscribed (trace s) ++ [NOTIFY_SUB_TOPIC])%list
    /\ pushes (trace s') = pushes (trace s).
Proof.
  unfold switch_relay_notifications, make_setter. cbn [fst snd].
  destruct (thread_pipe _); [|discriminate]. intros [= <-].
  destruct (on_pipe_unsubscribe_notify (setattr s "relay_notifications" false))
    as (s1 & Hrun & Hn & Hr & Hp & Hu).
  exists s1. split; [|repeat split; assumption].
  cbn [running]. unfold iteration. cbn [deliver inlet_ready pipe_ready].
  unfold bindL at 1. cbv beta iota zeta delta [ret].
  change {| cmd := "Unsubscribe"; arg := NOTIFY_SUB_TOPIC |} with unsubscribe_notify.
  rewrite Hrun. reflexivity.
Qed.

Lemma switch_off_notifications_closes_outlet_witness :
  exists s' : state,
    running [deliver unsubscribe_notify] (switch_relay_notifications false both_enabled).1
    = Polling s'
    /\ relay_notifications s' = false
    /\ notification_outlet s' = None
    /\ unsubscribed (trace s')
       = (unsubscribed (trace both_enabled) ++ [NOTIFY_SUB_TOPIC])%list
    /\ pushes (trace s') = pushes (trace both_enabled).
Proof.
  exact (switch_off_notifications_closes_outlet both_enabled unsubscribe_notify eq_refl).
Defined.

(** Turning the pupil switch off stops the worker: the flag becomes false and
    the command the switch sends makes a worker that never assigned
    [pupil_outlets] raise UnboundLocalError after the transport call, so the
    loop ends through the handler and the polls that follow are not read. *)
Theorem switch_off_pupil_stops_worker (s : state) (c : command) (rest : list poll) :
  pupil_outlets s = Unbound ->
  (switch_relay_pupil false s).2 = Ok c ->
  running (deliver c :: rest) (switch_relay_pupil false s).1
  = Stopped (finally (except (UnboundLocalError "pupil_outlets")
                        (emit (Unsubscribe PUPIL_SUB_TOPIC)
                           (switch_relay_pupil false s).1)))
  /\ relay_pupil (switch_relay_pupil false s).1 = false.
Proof.
  intros Hu. unfold switch_relay_pupil, make_setter. cbn [fst snd].
  destruct (thread_pipe _); [|discriminate]. intros [= <-].
  split; [|reflexivity].
  cbn [running]. unfold iteration. cbn [deliver inlet_ready pipe_ready].
  unfold bindL at 1. cbv beta iota zeta delta [ret].
  unfold on_pipe. cbn [cmd arg].
  change (String.eqb "Unsubscribe" "Exit") with false.
  change (String.eqb "Unsubscribe" "Subscribe") with false.
  change (String.eqb "Unsubscribe" "Unsubscribe") with true.
  change (String.eqb PUPIL_SUB_TOPIC PUPIL_SUB_TOPIC) with true.
  loop_steps. cbn. rewrite Hu. reflexivity.
Qed.

Lemma switch_off_pupil_stops_worker_witness :
  running (deliver {| cmd := "Unsubscribe"; arg := PUPIL_SUB_TOPIC |}
             :: [data "pupil.0" eye0])
    (switch_relay_pupil false both_enabled).1
  = Stopped (finally (except (UnboundLocalError "pupil_outlets")
                        (emit (Unsubscribe PUPIL_SUB_TOPIC)
                           (switch_relay_pupil false both_enabled).1)))
  /\ relay_pupil (switch_relay_pupil false both_enabled).1 = false.
Proof.
  exact (switch_off_pupil_stops_worker both_enabled
           {| cmd := "Unsubscribe"; arg := PUPIL_SUB_TOPIC |}
           [data "pupil.0" eye0] eq_refl eq_refl).
Defined.

(** Once the worker has stopped, a switch still stores its value, so that
    [get_init_dict] reports it, but sending the command raises
    AttributeError, because the handle it sends on was cleared. *)
Theorem switch_raises_once_worker_stopped (polls : list poll) (s : state) (v : bool) :
  stopped (running polls s) = true ->
  (switch_relay_pupil v (state_of (running polls s))).2
  = Raise (AttributeError "send_string")
  /\ (switch_relay_notifications v (state_of (running polls s))).2
     = Raise (AttributeError "send_string")
  /\ get_init_dict (switch_relay_pupil v (state_of (running polls s))).1
       !! "relay_pupil" = Some v
  /\ get_init_dict (switch_relay_notifications v (state_of (running polls s))).1
       !! "relay_notifications" = Some v.
Proof.
  intros Hs. destruct (proj1 (stopped_state polls s) Hs) as [Hp _].
  unfold switch_relay_pupil, switch_relay_notifications, make_setter. cbn [fst snd].
  change (thread_pipe (setattr (state_of (running polls s)) "relay_pupil" v))
    with (thread_pipe (state_of (running polls s))).
  change (thread_pipe (setattr (state_of (running polls s)) "relay_notifications" v))
    with (thread_pipe (state_of (running polls s))).
  rewrite Hp. repeat split.
Qed.

Lemma switch_raises_once_worker_stopped_witness :
  (switch_relay_pupil true (state_of (running [control "Exit" ""] both_enabled))).2
  = Raise (AttributeError "send_string")
  /\ (switch_relay_notifications true
        (state_of (running [control "Exit" ""] both_enabled))).2
     = Raise (AttributeError "send_string")
  /\ get_init_dict
       (switch_relay_pupil true (state_of (running [control "Exit" ""] both_enabled))).1
       !! "relay_pupil" = Some true
  /\ get_init_dict
       (switch_relay_notifications true
          (state_of (running [control "Exit" ""] both_enabled))).1
       !! "relay_notifications" = Some true.
Proof.
  exact (switch_raises_once_worker_stopped [control "Exit" ""] both_enabled true eq_refl).
Defined.

(** ** Start-up and the outlets *)


(** Both outlets declare as many channels as they have labels, doubles for
    the pupil outlet and strings for the notification outlet, and carry the
    same stream type and the same acquisition entries; the pupil outlet's
    source id is its name, [" @ "] and the url. *)
Theorem outlets_declare_their_channels (url name : string) :
  match _create_buffered_lsl_outlet url name, _create_notify_lsl_outlet url with
  | Outlet b, Outlet n =>
      si_channel_count b = List.length (si_channels b)
      /\ si_channel_count n = List.length (si_channels n)
      /\ si_channel_format b = cf_double64
      /\ si_channel_format n = cf_string
      /\ si_type b = si_type n
      /\ si_acquisition b = si_acquisition n
      /\ si_name b = name
      /\ si_source_id b = String.append name (String.append " @ " url)
  end.
Proof. repeat split. Qed.

(** ** More on the buffer *)

Lemma setitem_twice {A : Type} (l : list A) (z : Z) (x y : A) :
  Py.bind (Py.setitem l (PyInt z) x) (fun l' => Py.setitem l' (PyInt z) y)
  = Py.setitem l (PyInt z) y.
Proof.
  unfold Py.setitem, Py.bind.
  destruct ((0 <=? (if z <? 0 then z + Z.of_nat (length l) else z))
            && ((if z <? 0 then z + Z.of_nat (length l) else z) <? Z.of_nat (length l)))
    eqn:Hin; [|reflexivity].
  rewrite length_insert, Hin, list_insert_insert_eq. reflexivity.
Qed.

(** The buffer holds the latest sample of each eye: two updates of one slot
    leave what the second alone leaves (also when the id is out of range and
    both raise), and one update of each eye gives the same buffer in either
    order. *)
Theorem update_buffer_last_write_wins (s0 s1 x y : sample) (z : Z) (b : buffer) :
  (b' <- _update_buffer (PyInt z) b x ;; _update_buffer (PyInt z) b' y)
  = _update_buffer (PyInt z) b y
  /\ (b' <- _update_buffer (PyInt 0) [s0; s1] x ;; _update_buffer (PyInt 1) b' y)
     = Ok [x; y]
  /\ (b' <- _update_buffer (PyInt 1) [s0; s1] y ;; _update_buffer (PyInt 0) b' x)
     = Ok [x; y].
Proof.
  split; [apply setitem_twice | split; reflexivity].
Qed.

Lemma index_in_range (z n : Z) :
  (0 <=? (if z <? 0 then z + n else z)) && ((if z <? 0 then z + n else z) <? n) = true
  <-> - n <= z < n.
Proof.
  rewrite andb_true_iff, Z.leb_le, Z.ltb_lt.
  destruct (Z.ltb_spec z 0); lia.
Qed.

(** On a buffer of any length the update succeeds exactly for an integer id
    from minus the length up to the length less one (so never on an empty
    buffer, and never for an id that is a float or a string), and a
    successful update keeps the number of slots. *)
Theorem update_buffer_succeeds_in_range (eyeid : value) (b : buffer) (smp : sample) :
  (Py.is_ok (_update_buffer eyeid b smp) = true <->
     exists z : Z,
       eyeid = PyInt z /\ - Z.of_nat (List.length b) <= z < Z.of_nat (List.length b))
  /\ (forall b' : buffer,
        _update_buffer eyeid b smp = Ok b' -> List.length b' = List.length b).
Proof.
  split.
  - unfold _update_buffer, Py.setitem.
    destruct eyeid as [z|f|str]; cbn [Py.is_ok].
    + pose proof (index_in_range z (Z.of_nat (length b))) as Hr.
      destruct (_ && _); cbn [Py.is_ok]; split.
      * intros _. exists z. split; [reflexivity | apply Hr; reflexivity].
      * reflexivity.
      * discriminate.
      * intros (z' & Hz & Hin). injection Hz as <-. apply Hr. exact Hin.
    + split; [discriminate | intros (z & Hz & _); discriminate Hz].
    + split; [discriminate | intros (z & Hz & _); discriminate Hz].
  - intros b'. apply update_buffer_length.
Qed.

(** [buffer2sample] needs two slots: on a shorter buffer it raises
    IndexError; when it returns, the sample is the two diameters, the two
    confidences and a timestamp that is one of the two buffered timestamps. *)
Theorem buffer2sample_shape (b : buffer) :
  ((List.length b < 2)%nat -> buffer2sample b = Raise IndexError)
  /\ (forall out : list value,
        buffer2sample b = Ok out ->
        exists (b0 b1 : sample) (m : value),
          b !! 0%nat = Some b0 /\ b !! 1%nat = Some b1
          /\ out = [diameter_of b0; diameter_of b1;
                    confidence_of b0; confidence_of b1; m]
          /\ (m = timestamp_of b0 \/ m = timestamp_of b1)).
Proof.
  split.
  - destruct b as [|b0 [|b1 b]]; [reflexivity | reflexivity | cbn; lia].
  - intros out. destruct b as [|b0 [|b1 b]]; [discriminate | discriminate |].
    unfold buffer2sample, Py.index, Py.bind, Py.max. cbn [lookup list_lookup].
    destruct (Py.gt (timestamp_of b1) (timestamp_of b0)) as [g|]; cbn; [|discriminate].
    intros [= <-]. exists b0, b1. eexists.
    split; [reflexivity|]. split; [reflexivity|]. split; [reflexivity|].
    destruct g; [right | left]; reflexivity.
Qed.
